(** * Weather dashboard: validation, transformation and submission pipeline

    A shallow embedding of the front-end core of the weather dashboard:

    - [frontend/src/utils/validation.js]   (module [Validation])
    - [frontend/src/utils/backendApi.js]   (module [BackendApi])
    - [frontend/src/components/WeatherForm.jsx], [handleSubmit]
    - the dashboard component, [handleFormSubmit]      (module [Dashboard])

    JavaScript numbers are IEEE 754 binary64 values; they are modelled by
    [spec_float] with [prec = 53] and [emax = 1024], so that [parseFloat],
    [isNaN] and the comparisons behave as they do in the engine.
    JavaScript strings are modelled by [string], read as UTF-8 text. *)

From Stdlib Require Import ZArith NArith String Ascii SpecFloat Bool Lia.
From Stdlib Require Import DecimalString.
From stdpp Require Import base option list strings gmap.

Local Open Scope string_scope.
Local Open Scope Z_scope.

(** ** Numbers *)

Module JSNumber.

Definition number : Type := spec_float.
Definition prec : Z := 53.
Definition emax : Z := 1024.

(** A numeric literal with an integral value, e.g. [-90] or [730]. *)
Definition of_Z (z : Z) : number := binary_normalize prec emax z 0 false.

Definition isNaN (x : number) : bool :=
  match x with S754_nan => true | _ => false end.

(** [x < y], [x > y], [x <= y]; each is [false] as soon as one side is NaN. *)
Definition lt (x y : number) : bool := SFltb x y.
Definition gt (x y : number) : bool := SFltb y x.
Definition le (x y : number) : bool := SFleb x y.

Definition byte (c : ascii) : N := N_of_ascii c.

(** Leading white space and line terminators, as [parseFloat] strips them:
    U+0009..U+000D, U+0020, U+00A0, U+1680, U+2000..U+200A, U+2028, U+2029,
    U+202F, U+205F, U+3000 and U+FEFF, in their UTF-8 encodings. *)
Fixpoint trimStart (s : string) : string :=
  match s with
  | String c r =>
      let n := byte c in
      if ((9 <=? n) && (n <=? 13) || (n =? 32))%N then trimStart r
      else
        match r with
        | String c2 r2 =>
            if ((n =? 194) && (byte c2 =? 160))%N then trimStart r2
            else
              match r2 with
              | String c3 r3 =>
                  let b := byte c2 in
                  let d := byte c3 in
                  if (((n =? 225) && (b =? 154) && (d =? 128))
                      || ((n =? 226) && (b =? 128)
                          && ((128 <=? d) && (d <=? 138)
                              || (d =? 168) || (d =? 169) || (d =? 175)))
                      || ((n =? 226) && (b =? 129) && (d =? 159))
                      || ((n =? 227) && (b =? 128) && (d =? 128))
                      || ((n =? 239) && (b =? 187) && (d =? 191)))%N
                  then trimStart r3
                  else s
              | EmptyString => s
              end
        | EmptyString => s
        end
  | EmptyString => s
  end.

Definition digit (c : ascii) : option Z :=
  let n := byte c in
  if ((48 <=? n) && (n <=? 57))%N then Some (Z.of_N n - 48) else None.

(** The longest run of decimal digits at the head of [s], and what follows. *)
Fixpoint DecimalDigits (s : string) : list Z * string :=
  match s with
  | String c r =>
      match digit c with
      | Some d => let '(ds, rest) := DecimalDigits r in (d :: ds, rest)
      | None => ([], s)
      end
  | EmptyString => ([], s)
  end.

Definition digitsMV (ds : list Z) : Z :=
  fold_left (fun acc d => 10 * acc + d) ds 0.

Definition Sign (s : string) : bool * string :=
  match s with
  | String "+" r => (false, r)
  | String "-" r => (true, r)
  | _ => (false, s)
  end.

(** An exponent part is taken only when it is complete: [e] or [E], an
    optional sign and at least one digit.  Returns its value and the rest. *)
Definition ExponentPart (s : string) : Z * string :=
  match s with
  | String c r =>
      if (Ascii.eqb c "e" || Ascii.eqb c "E")%bool then
        let '(neg, r1) := Sign r in
        match DecimalDigits r1 with
        | ([], _) => (0, s)
        | (ds, rest) => (if neg then - digitsMV ds else digitsMV ds, rest)
        end
      else (0, s)
  | EmptyString => (0, s)
  end.

Inductive StrDecimalLiteral :=
  | LitInfinity (neg : bool)
  | LitDecimal (neg : bool) (mant : Z) (exp10 : Z).

(** The longest prefix of [s] that is a [StrDecimalLiteral], with the
    unread remainder of [s]; [None] when no prefix is one. *)
Definition longestPrefix (s : string) : option (StrDecimalLiteral * string) :=
  let '(neg, r) := Sign s in
  if String.prefix "Infinity" r
  then Some (LitInfinity neg, String.substring 8 (String.length r - 8) r)
  else
    let '(ip, r1) := DecimalDigits r in
    match r1 with
    | String "." r2 =>
        let '(fp, r3) := DecimalDigits r2 in
        match ip, fp with
        | [], [] => None
        | _, _ =>
            let '(e, rest) := ExponentPart r3 in
            Some (LitDecimal neg (digitsMV (ip ++ fp)) (e - Z.of_nat (length fp)), rest)
        end
    | _ =>
        match ip with
        | [] => None
        | _ =>
            let '(e, rest) := ExponentPart r1 in
            Some (LitDecimal neg (digitsMV ip) e, rest)
        end
    end.

(** The binary64 value nearest to [m * 10 ^ e] (ties to even), with the sign
    kept on zero.  The language lets an engine drop digits after the
    twentieth; this is the exact rounding, which the engines implement. *)
Definition RoundMVResult (neg : bool) (m e : Z) : number :=
  match m with
  | Zpos p =>
      match e with
      | Zneg k =>
          SFdiv prec emax (S754_finite neg p 0) (S754_finite false (Pos.pow 10 k) 0)
      | _ => binary_round prec emax neg (p * Z.to_pos (10 ^ e)) 0
      end
  | _ => S754_zero neg
  end.

Definition parseFloat (s : string) : number :=
  match longestPrefix (trimStart s) with
  | None => S754_nan
  | Some (LitInfinity neg, _) => S754_infinity neg
  | Some (LitDecimal neg m e, _) => RoundMVResult neg m e
  end.

(** The string of a non-negative integer, as a template literal prints it. *)
Definition decimal (z : Z) : string :=
  NilZero.string_of_uint (N.to_uint (Z.to_N z)).

(** [s] is a numeral from its first to its last character. *)
Definition wholeNumeral (s : string) : bool :=
  match longestPrefix s with
  | Some (_, "") => true
  | _ => false
  end.

End JSNumber.

(** ** Dates *)

Module JSDate.
Import JSNumber.

(** A [Date] object holds a time value, in milliseconds since the epoch, or
    is an invalid date, whose time value is NaN. *)
Inductive Date :=
  | InvalidDate
  | TimeValue (t : Z).

Definition msPerDay : Z := 1000 * 60 * 60 * 24.

(** [a > b] on two dates compares their time values; with NaN on either
    side the comparison is [false]. *)
Definition gt (a b : Date) : bool :=
  match a, b with
  | TimeValue x, TimeValue y => y <? x
  | _, _ => false
  end.

(** [Math.abs(b - a)]; [None] stands for NaN. *)
Definition absDiff (b a : Date) : option Z :=
  match b, a with
  | TimeValue y, TimeValue x => Some (Z.abs (y - x))
  | _, _ => None
  end.

(** [Math.ceil(x / d)] for an integral [x] and a positive integral [d]. *)
Definition ceilDiv (x d : Z) : Z := - ((- x) / d).

(** Year, month and day (UTC) of the day that is [days] days after the epoch. *)
Definition civil (days : Z) : Z * Z * Z :=
  let z := days + 719468 in
  let era := z / 146097 in
  let doe := z - era * 146097 in
  let yoe := (doe - doe / 1460 + doe / 36524 - doe / 146096) / 365 in
  let doy := doe - (365 * yoe + yoe / 4 - yoe / 100) in
  let mp := (5 * doy + 2) / 153 in
  let d := doy - (153 * mp + 2) / 5 + 1 in
  let m := if mp <? 10 then mp + 3 else mp - 9 in
  (yoe + era * 400 + (if m <=? 2 then 1 else 0), m, d).

Fixpoint zeros (n : nat) : string :=
  match n with
  | O => ""
  | S k => String "0" (zeros k)
  end.

Definition padStart (width : nat) (s : string) : string :=
  zeros (width - String.length s) +:+ s.

(** [d.toISOString().split('T')[0]]: the calendar date in UTC, with a
    four-digit year from 0 to 9999 and a signed six-digit year otherwise.
    [toISOString] throws a [RangeError] on an invalid date: [None]. *)
Definition toISODate (d : Date) : option string :=
  match d with
  | InvalidDate => None
  | TimeValue t =>
      let '(y, m, dd) := civil (t / msPerDay) in
      let year :=
        if (0 <=? y) && (y <=? 9999) then padStart 4 (decimal y)
        else (if y <? 0 then "-" else "+") +:+ padStart 6 (decimal (Z.abs y)) in
      Some (year +:+ "-" +:+ padStart 2 (decimal m) +:+ "-" +:+ padStart 2 (decimal dd))
  end.

End JSDate.

(** ** validation.js *)

Module Validation.
Import JSNumber JSDate.

Record ValidationResult := { isValid : bool; error : option string }.

Definition ok : ValidationResult := {| isValid := true; error := None |}.
Definition reject (msg : string) : ValidationResult :=
  {| isValid := false; error := Some msg |}.

(** The messages, under the names the error taxonomy gives them. *)
Definition LatitudeInvalidNumber := "Latitude must be a valid number".
Definition LatitudeOutOfRange := "Latitude must be between -90 and 90 degrees".
Definition LongitudeInvalidNumber := "Longitude must be a valid number".
Definition LongitudeOutOfRange := "Longitude must be between -180 and 180 degrees".
Definition MissingDate := "Both start and end dates are required".
Definition InvertedRange := "Start date must be before or equal to end date".
Definition FutureDate := "End date cannot be in the future".
Definition RangeTooLarge := "Date range cannot exceed 2 years".

Definition validateLatitude (latitude : string) : ValidationResult :=
  let lat := parseFloat latitude in
  if isNaN lat then reject LatitudeInvalidNumber
  else if lt lat (of_Z (-90)) || JSNumber.gt lat (of_Z 90) then reject LatitudeOutOfRange
  else ok.

Definition validateLongitude (longitude : string) : ValidationResult :=
  let lng := parseFloat longitude in
  if isNaN lng then reject LongitudeInvalidNumber
  else if lt lng (of_Z (-180)) || JSNumber.gt lng (of_Z 180) then reject LongitudeOutOfRange
  else ok.

(** [Math.ceil(Math.abs(endDate - startDate) / (1000 * 60 * 60 * 24))];
    [None] stands for NaN.  Time values are integers of magnitude at most
    8.64e15, and for those the test [diffDays > 730] below has the same
    outcome in binary64 arithmetic as in exact arithmetic. *)
Definition diffDays (startDate endDate : Date) : option Z :=
  diffTime ← absDiff endDate startDate;
  Some (ceilDiv diffTime msPerDay).

(** [today] is the time value of [new Date()] after [setHours(0, 0, 0, 0)]:
    the clock reading the function takes, cut to local midnight. *)
Definition validateDateRange (today : Z) (startDate endDate : option Date)
  : ValidationResult :=
  match startDate, endDate with
  | Some s, Some e =>
      if JSDate.gt s e then reject InvertedRange
      else if JSDate.gt e (TimeValue today) then reject FutureDate
      else
        match diffDays s e with
        | Some d => if 730 <? d then reject RangeTooLarge else ok
        | None => ok
        end
  | _, _ => reject MissingDate
  end.

Record FormData := {
  latitude : string;
  longitude : string;
  startDate : option Date;
  endDate : option Date
}.

Definition validateFormInputs (today : Z) (formData : FormData) : ValidationResult :=
  let latValidation := validateLatitude (latitude formData) in
  if negb (isValid latValidation) then latValidation
  else
    let lngValidation := validateLongitude (longitude formData) in
    if negb (isValid lngValidation) then lngValidation
    else
      let dateValidation :=
        validateDateRange today (startDate formData) (endDate formData) in
      if negb (isValid dateValidation) then dateValidation
      else ok.

End Validation.

(** ** Asynchronous code

    An [async] function either returns or throws, and may change the state
    it runs in on the way.  [M S A] is such a computation over a state [S];
    [inl e] is an exception carrying the error object [e]. *)

Module Async.

(** The body of an error response, as far as the code reads it:
    [status], [statusText] and [data?.error] ([None] when [data] or its
    [error] field is null or undefined). *)
Record ErrorResponse := {
  status : Z;
  statusText : string;
  data_error : option string
}.

(** An error object: [error.response], whether [error.request] is set, and
    [error.message]. *)
Record JsError := {
  response : option ErrorResponse;
  request : bool;
  message : option string
}.

Definition TypeError (msg : string) : JsError :=
  {| response := None; request := false; message := Some msg |}.
Definition RangeError (msg : string) : JsError :=
  {| response := None; request := false; message := Some msg |}.

Definition M (S A : Type) : Type := S -> (JsError + A) * S.

#[export] Instance M_ret {S} : MRet (M S) := fun A (a : A) s => (inr a, s).

#[export] Instance M_bind {S} : MBind (M S) := fun A B (f : A -> M S B) (c : M S A) s =>
  match c s with
  | (inr a, s') => f a s'
  | (inl e, s') => (inl e, s')
  end.

Definition throw {S A} (e : JsError) : M S A := fun s => (inl e, s).

Definition modify {S} (f : S -> S) : M S unit := fun s => (inr tt, f s).

(** [try { body } catch (err) { handler err }]. *)
Definition tryCatch {S A} (body : M S A) (handler : JsError -> M S A) : M S A :=
  fun s =>
    match body s with
    | (inl e, s') => handler e s'
    | returned => returned
    end.

(** [try { body } catch (err) { handler err } finally { final }]. *)
Definition tryCatchFinally {S A} (body : M S A) (handler : JsError -> M S A)
    (final : M S unit) : M S A := fun s =>
  let '(r, s1) := tryCatch body handler s in
  match final s1 with
  | (inl e, s2) => (inl e, s2)
  | (inr _, s2) => (r, s2)
  end.

(** [a || b] on strings: the empty string, null and undefined are falsy. *)
Definition orElse (a : option string) (b : string) : string :=
  match a with
  | Some (String c r) => String c r
  | _ => b
  end.

End Async.

(** ** backendApi.js *)

Module BackendApi.
Import JSNumber Async.

(** *** The payloads *)

(** An element of one of the series of the payload: a number, or null where
    the provider has no value for the day. *)
Inductive Cell :=
  | Num (x : number)
  | Null.

(** The [daily] object; a field that is missing (or null) is [None]. *)
Record Daily := {
  time : option (list string);
  temperature_2m_max : option (list Cell);
  temperature_2m_min : option (list Cell);
  temperature_2m_mean : option (list Cell);
  apparent_temperature_max : option (list Cell);
  apparent_temperature_min : option (list Cell);
  apparent_temperature_mean : option (list Cell)
}.

Record RawSeriesResponse := { daily : option Daily }.

(** The body of the store request and of its answer; of the answer only
    [filename] is read. *)
Record StoreRequest := {
  latitude : number;
  longitude : number;
  start_date : string;
  end_date : string
}.

Record StoreResponse := { filename : option string }.

Record OperationResult (A : Type) := {
  success : bool;
  data : option A;
  error : option string
}.
Arguments success {A} _.
Arguments data {A} _.
Arguments error {A} _.

(** *** The transport

    Every call of [api.post] or [api.get] is recorded, and the backend
    decides, from the calls made so far and the present one, whether the
    promise resolves (with [response.data], which may be null) or rejects. *)
Inductive Call :=
  | POST (url : string) (body : StoreRequest)
  | GET (url : string).

Record Backend := {
  on_post : list Call -> string -> StoreRequest -> JsError + option StoreResponse;
  on_get : list Call -> string -> JsError + option RawSeriesResponse
}.

Record World (U : Type) := { ui : U; calls : list Call }.
Arguments ui {U} _.
Arguments calls {U} _.

Section Transport.
Context {U : Type}.
Variable backend : Backend.

Definition api_post (url : string) (body : StoreRequest)
  : M (World U) (option StoreResponse) := fun w =>
  (on_post backend (calls w) url body,
   {| ui := ui w; calls := calls w ++ [POST url body] |}).

Definition api_get (url : string) : M (World U) (option RawSeriesResponse) :=
  fun w =>
  (on_get backend (calls w) url,
   {| ui := ui w; calls := calls w ++ [GET url] |}).

(** The [console.error] calls of the [catch] blocks only log. *)
Definition storeWeatherData (latitude longitude : number) (startDate endDate : string)
  : M (World U) (OperationResult StoreResponse) :=
  tryCatch
    (response ← api_post "/weather/store-weather-data"
       {| latitude := latitude; longitude := longitude;
          start_date := startDate; end_date := endDate |};
     mret {| success := true; data := response; error := None |})
    (fun error =>
       let errorMessage := "Failed to store weather data" in
       let errorMessage :=
         match response error with
         | Some r =>
             "API Error: " +:+ decimal (status r) +:+ " - "
               +:+ orElse (data_error r) (statusText r)
         | None =>
             if request error
             then "Network error: Unable to reach backend service"
             else orElse (message error) "Unknown error occurred"
         end in
       mret {| success := false; data := None; error := Some errorMessage |}).

(** [`${filename}`] inside a template literal. *)
Definition template (v : option string) : string := default "undefined" v.

Definition getWeatherFileContent (filename : option string)
  : M (World U) (OperationResult RawSeriesResponse) :=
  tryCatch
    (response ← api_get ("/weather/weather-file-content/" +:+ template filename);
     mret {| success := true; data := response; error := None |})
    (fun error =>
       let errorMessage := "Failed to fetch weather file content" in
       let errorMessage :=
         match response error with
         | Some r =>
             "API Error: " +:+ decimal (status r) +:+ " - "
               +:+ orElse (data_error r) (statusText r)
         | None =>
             if request error
             then "Network error: Unable to reach backend service"
             else orElse (message error) "Unknown error occurred"
         end in
       mret {| success := false; data := None; error := Some errorMessage |}).

End Transport.

(** *** transformDataForChart *)

(** The chart object; it lives in a module of its own because its field
    [data] has the name of the field of the result envelope. *)
Module Chart.
Record Dataset := {
  label : string;
  data : list Cell;
  borderColor : string;
  backgroundColor : string;
  tension : number
}.

Record ChartData := { labels : list string; datasets : list Dataset }.
End Chart.
Export Chart (Dataset, ChartData, label, borderColor, backgroundColor, tension,
              labels, datasets).

(** [a || []]: a missing field reads as the empty array. *)
Definition orEmpty {A} (a : option (list A)) : list A := default [] a.

(** [RoundMVResult false 4 (-1)] is the literal [0.4]. *)
Definition transformDataForChart (weatherData : option RawSeriesResponse)
  : option ChartData :=
  match weatherData with
  | None => None
  | Some w =>
      match daily w with
      | None => None
      | Some daily =>
          let dates := orEmpty (time daily) in
          Some {|
            labels := dates;
            datasets := [
              {| label := "Max Temperature (°C)";
                 Chart.data := orEmpty (temperature_2m_max daily);
                 borderColor := "rgb(239, 68, 68)";
                 backgroundColor := "rgba(239, 68, 68, 0.1)";
                 tension := RoundMVResult false 4 (-1) |};
              {| label := "Min Temperature (°C)";
                 Chart.data := orEmpty (temperature_2m_min daily);
                 borderColor := "rgb(59, 130, 246)";
                 backgroundColor := "rgba(59, 130, 246, 0.1)";
                 tension := RoundMVResult false 4 (-1) |};
              {| label := "Mean Temperature (°C)";
                 Chart.data := orEmpty (temperature_2m_mean daily);
                 borderColor := "rgb(16, 185, 129)";
                 backgroundColor := "rgba(16, 185, 129, 0.1)";
                 tension := RoundMVResult false 4 (-1) |}
            ]
          |}
      end
  end.

(** *** transformDataForTable *)

(** A field of a table row: a number, or a string (the sentinel). *)
Inductive Field :=
  | FNum (x : number)
  | FStr (s : string).

Record TableRow := {
  id : nat;
  date : string;
  tempMax : Field;
  tempMin : Field;
  tempMean : Field;
  apparentTempMax : Field;
  apparentTempMin : Field;
  apparentTempMean : Field
}.

(** [arr?.[index]]: undefined ([None]) when [arr] is missing or has no
    element at [index]. *)
Definition optIndex (arr : option (list Cell)) (index : nat) : option Cell :=
  l ← arr; l !! index.

(** [v ?? 'N/A']: the sentinel replaces null and undefined. *)
Definition orNA (v : option Cell) : Field :=
  match v with
  | Some (Num x) => FNum x
  | Some Null | None => FStr "N/A"
  end.

Definition transformDataForTable (weatherData : option RawSeriesResponse)
  : list TableRow :=
  match weatherData with
  | None => []
  | Some w =>
      match daily w with
      | None => []
      | Some daily =>
          let dates := orEmpty (time daily) in
          imap (fun index date =>
                  {| id := index + 1;
                     date := date;
                     tempMax := orNA (optIndex (temperature_2m_max daily) index);
                     tempMin := orNA (optIndex (temperature_2m_min daily) index);
                     tempMean := orNA (optIndex (temperature_2m_mean daily) index);
                     apparentTempMax := orNA (optIndex (apparent_temperature_max daily) index);
                     apparentTempMin := orNA (optIndex (apparent_temperature_min daily) index);
                     apparentTempMean := orNA (optIndex (apparent_temperature_mean daily) index)
                  |})
               dates
      end
  end.

End BackendApi.

(** ** The state of the two components *)

Module UIState.
Import JSNumber JSDate Async BackendApi.

(** [WeatherForm]: the form fields and the [errors] object, of which
    [handleSubmit] sets the [general] entry. *)
Record Errors := { general : option string }.

Record FormState := {
  formData : Validation.FormData;
  errors : Errors
}.

(** The object [handleSubmit] passes to [onSubmit]. *)
Record Submission := {
  latitude : number;
  longitude : number;
  startDate : option Date;
  endDate : option Date
}.

(** [lastQuery]; its display string [location] is left out, nothing below
    reads it. *)
Record LastQuery := {
  q_latitude : number;
  q_longitude : number;
  q_startDate : string;
  q_endDate : string;
  q_filename : option string
}.

(** [WeatherDashboard]: one field per [useState]. *)
Record DashboardState := {
  loading : bool;
  weatherData : option RawSeriesResponse;
  chartData : option ChartData;
  tableData : list TableRow;
  error : option string;
  lastQuery : option LastQuery
}.

Definition initialDashboard : DashboardState :=
  {| loading := false; weatherData := None; chartData := None;
     tableData := []; error := None; lastQuery := None |}.

Record UI := { form : FormState; dashboard : DashboardState }.

Definition App : Type := World UI.

Definition onDashboard (f : DashboardState -> DashboardState) : M App unit :=
  modify (fun w =>
    {| ui := {| form := form (ui w); dashboard := f (dashboard (ui w)) |};
       calls := calls w |}).

Definition setLoading (v : bool) : M App unit :=
  onDashboard (fun d =>
    {| loading := v; weatherData := weatherData d; chartData := chartData d;
       tableData := tableData d; error := error d; lastQuery := lastQuery d |}).

Definition setWeatherData (v : option RawSeriesResponse) : M App unit :=
  onDashboard (fun d =>
    {| loading := loading d; weatherData := v; chartData := chartData d;
       tableData := tableData d; error := error d; lastQuery := lastQuery d |}).

Definition setChartData (v : option ChartData) : M App unit :=
  onDashboard (fun d =>
    {| loading := loading d; weatherData := weatherData d; chartData := v;
       tableData := tableData d; error := error d; lastQuery := lastQuery d |}).

Definition setTableData (v : list TableRow) : M App unit :=
  onDashboard (fun d =>
    {| loading := loading d; weatherData := weatherData d; chartData := chartData d;
       tableData := v; error := error d; lastQuery := lastQuery d |}).

Definition setError (v : option string) : M App unit :=
  onDashboard (fun d =>
    {| loading := loading d; weatherData := weatherData d; chartData := chartData d;
       tableData := tableData d; error := v; lastQuery := lastQuery d |}).

Definition setLastQuery (v : option LastQuery) : M App unit :=
  onDashboard (fun d =>
    {| loading := loading d; weatherData := weatherData d; chartData := chartData d;
       tableData := tableData d; error := error d; lastQuery := v |}).

Definition setErrors (v : Errors) : M App unit :=
  modify (fun w =>
    {| ui := {| form := {| formData := formData (form (ui w)); errors := v |};
                dashboard := dashboard (ui w) |};
       calls := calls w |}).

End UIState.

(** ** WeatherForm.jsx *)

Module WeatherForm.
Import JSNumber Async BackendApi UIState.

(** [today] is the clock reading [validateDateRange] takes; [onSubmit] is
    the prop of the component.  [e.preventDefault()] only stops the browser
    from reloading the page. *)
Definition handleSubmit (today : Z) (onSubmit : Submission -> M App unit)
  : M App unit := fun w =>
  let formData := formData (form (ui w)) in
  let validation := Validation.validateFormInputs today formData in
  (if negb (Validation.isValid validation)
   then setErrors {| general := Validation.error validation |}
   else
     _ ← setErrors {| general := None |};
     onSubmit {| latitude := parseFloat (Validation.latitude formData);
                 longitude := parseFloat (Validation.longitude formData);
                 startDate := Validation.startDate formData;
                 endDate := Validation.endDate formData |}) w.

End WeatherForm.

(** ** The dashboard component *)

Module WeatherDashboard.
Import JSNumber JSDate Async BackendApi UIState.

Section Component.
Variable backend : Backend.

(** [date.toISOString().split('T')[0]], with the exceptions of a null or
    invalid date. *)
Definition isoDate (date : option Date) : M App string :=
  match date with
  | None => throw (TypeError "Cannot read properties of null (reading 'toISOString')")
  | Some d =>
      match toISODate d with
      | None => throw (RangeError "Invalid time value")
      | Some s => mret s
      end
  end.

(** [storeResult.data.filename]. *)
Definition dataFilename (r : OperationResult StoreResponse) : M App (option string) :=
  match data r with
  | None => throw (TypeError "Cannot read properties of null (reading 'filename')")
  | Some body => mret (filename body)
  end.

Definition handleFormSubmit (formData : Submission) : M App unit :=
  _ ← setLoading true;
  _ ← setError None;
  tryCatchFinally
    (let latitude := latitude formData in
     let longitude := longitude formData in
     startDateStr ← isoDate (startDate formData);
     endDateStr ← isoDate (endDate formData);
     storeResult ← storeWeatherData backend latitude longitude startDateStr endDateStr;
     if success storeResult then
       filename ← dataFilename storeResult;
       contentResult ← getWeatherFileContent backend filename;
       if success contentResult then
         _ ← setWeatherData (data contentResult);
         _ ← setChartData (transformDataForChart (data contentResult));
         _ ← setTableData (transformDataForTable (data contentResult));
         setLastQuery (Some {| q_latitude := latitude; q_longitude := longitude;
                               q_startDate := startDateStr; q_endDate := endDateStr;
                               q_filename := filename |})
       else
         _ ← setError (BackendApi.error contentResult);
         _ ← setWeatherData None;
         _ ← setChartData None;
         setTableData []
     else
       _ ← setError (BackendApi.error storeResult);
       _ ← setWeatherData None;
       _ ← setChartData None;
       setTableData [])
    (fun err => setError (Some "An unexpected error occurred while fetching weather data"))
    (setLoading false).

(** The dashboard renders [<WeatherForm onSubmit={handleFormSubmit} />]:
    a submission of the form is [handleSubmit] with that prop. *)
Definition submit (today : Z) : M App unit :=
  WeatherForm.handleSubmit today handleFormSubmit.

End Component.

End WeatherDashboard.

(** ** Number.prototype.toFixed *)

Module NumberFormat.
Import JSNumber.

(** The decimal digits of [n] with a point before the last [f] of them,
    zeros added in front so that a digit stands before the point. *)
Definition pointed (f : nat) (n : Z) : string :=
  let m := decimal n in
  match f with
  | O => m
  | _ =>
      let m := JSDate.zeros (f + 1 - String.length m) +:+ m in
      let k := String.length m in
      String.substring 0 (k - f) m +:+ "." +:+ String.substring (k - f) f m
  end.

(** [x.toFixed(f)] for [0 <= f <= 100]: the integer [n] for which
    [n / 10 ^ f] is nearest to [x], the larger one on a tie, printed with
    the point [f] digits from the right.  A finite [x] of magnitude [10 ^ 21]
    or more is printed by [Number::toString], which is not modelled: [None]. *)
Definition toFixed (x : number) (f : nat) : option string :=
  match x with
  | S754_nan => Some "NaN"
  | S754_infinity s => Some (if s then "-Infinity" else "Infinity")
  | S754_zero _ => Some (pointed f 0)
  | S754_finite s m e =>
      let scale := 10 ^ Z.of_nat f in
      let big :=
        match e with
        | Zneg k => 10 ^ 21 * Z.pow_pos 2 k <=? Zpos m
        | _ => 10 ^ 21 <=? Zpos m * 2 ^ e
        end in
      if big then None
      else
        let n :=
          match e with
          | Zneg k => (2 * Zpos m * scale + Z.pow_pos 2 k) / (2 * Z.pow_pos 2 k)
          | _ => Zpos m * 2 ^ e * scale
          end in
        Some ((if s then "-" else "") +:+ pointed f n)
  end.

(** [Math.abs(x)] and [x >= y]. *)
Definition abs (x : number) : number := SFabs x.
Definition ge (x y : number) : bool := SFleb y x.

End NumberFormat.

(** ** validation.js: formatCoordinates *)

Module Coordinates.
Import JSNumber NumberFormat.

Definition formatCoordinates (lat lng : number) : option string :=
  let latDir := if ge lat (of_Z 0) then "N" else "S" in
  let lngDir := if ge lng (of_Z 0) then "E" else "W" in
  a ← toFixed (abs lat) 4;
  b ← toFixed (abs lng) 4;
  Some (a +:+ "°" +:+ latDir +:+ ", " +:+ b +:+ "°" +:+ lngDir).

(** [x || 0] on a number: NaN and both zeros are falsy. *)
Definition orZero (x : number) : number :=
  match x with
  | S754_nan | S754_zero _ => of_Z 0
  | _ => x
  end.

(** The line under the two inputs of the form: shown when both strings are
    non-empty, with [parseFloat(...) || 0] for each. *)
Definition coordinatesLine (latitude longitude : string) : option (option string) :=
  match latitude, longitude with
  | String _ _, String _ _ =>
      Some (formatCoordinates (orZero (parseFloat latitude)) (orZero (parseFloat longitude)))
  | _, _ => None
  end.

End Coordinates.

(** ** The table component *)

Module WeatherTable.
Import JSNumber JSDate BackendApi NumberFormat.

(** [currentPage] and [itemsPerPage]; the latter is 10, 20 or 50, the
    options of the select.  Both are integers; the divisions below are
    those of the source for a positive [itemsPerPage]. *)
Record State := { currentPage : Z; itemsPerPage : Z }.

Definition initial : State := {| currentPage := 1; itemsPerPage := 10 |}.

(** [l.slice(start, end)]: a negative index counts from the end, and both
    are cut to the bounds of [l]. *)
Definition slice {A} (l : list A) (start final : Z) : list A :=
  let len := Z.of_nat (length l) in
  let from := if start <? 0 then Z.max (len + start) 0 else Z.min start len in
  let to := if final <? 0 then Z.max (len + final) 0 else Z.min final len in
  take (Z.to_nat (to - from)) (drop (Z.to_nat from) l).

Section Component.
Context {Row : Type}.

(** The prop [data]: [None] when it is null, undefined or not an array. *)
Variable data : option (list Row).

(** [data?.length || 0]. *)
Definition dataLength : Z :=
  match data with
  | Some d => Z.of_nat (length d)
  | None => 0
  end.

Definition paginatedData (st : State) : list Row :=
  match data with
  | None => []
  | Some d =>
      let startIndex := (currentPage st - 1) * itemsPerPage st in
      let endIndex := startIndex + itemsPerPage st in
      slice d startIndex endIndex
  end.

Definition totalPages (st : State) : Z := ceilDiv dataLength (itemsPerPage st).

Definition handlePageChange (newPage : Z) (st : State) : State :=
  {| currentPage := Z.max 1 (Z.min newPage (totalPages st));
     itemsPerPage := itemsPerPage st |}.

(** The [onChange] of the select: [setItemsPerPage(Number(value))] and
    [setCurrentPage(1)]. *)
Definition handleItemsPerPageChange (value : Z) (st : State) : State :=
  {| currentPage := 1; itemsPerPage := value |}.

(** The number on button [i] of the row of page buttons. *)
Definition pageNum (st : State) (i : Z) : Z :=
  if totalPages st <=? 5 then i + 1
  else if currentPage st <=? 3 then i + 1
  else if totalPages st - 2 <=? currentPage st then totalPages st - 4 + i
  else currentPage st - 2 + i.

(** [Array.from({ length: Math.min(5, totalPages) }, (_, i) => ...)]. *)
Definition pageButtons (st : State) : list Z :=
  pageNum st <$> seqZ 0 (Z.min 5 (totalPages st)).

(** The two numbers of the line [Showing a to b of n entries]. *)
Definition showingFrom (st : State) : Z := (currentPage st - 1) * itemsPerPage st + 1.
Definition showingTo (st : State) : Z := Z.min (currentPage st * itemsPerPage st) dataLength.

(** The two arrow buttons: what a click does, and when they are disabled. *)
Definition previousPage (st : State) : State := handlePageChange (currentPage st - 1) st.
Definition nextPage (st : State) : State := handlePageChange (currentPage st + 1) st.
Definition previousDisabled (st : State) : bool := currentPage st =? 1.
Definition nextDisabled (st : State) : bool := currentPage st =? totalPages st.

End Component.


End WeatherTable.

(** ** The dashboard: what it shows *)

Module DashboardView.
Import JSNumber BackendApi UIState NumberFormat.

(** [typeof v === 'number' ? v : 0]. *)
Definition numberOrZero (v : Field) : number :=
  match v with
  | FNum x => x
  | FStr _ => of_Z 0
  end.

(** [tableData.reduce((sum, row) => sum + (...), 0)] over the field [sel]. *)
Definition sumOf (sel : TableRow -> Field) (tableData : list TableRow) : number :=
  fold_left (fun sum row => SFadd prec emax sum (numberOrZero (sel row)))
            tableData (of_Z 0).

(** The text of a summary card, before the unit: the average to one
    decimal, or ["N/A"] for an empty table. *)
Definition average (sel : TableRow -> Field) (tableData : list TableRow)
  : option string :=
  if 0 <? Z.of_nat (length tableData)
  then toFixed (SFdiv prec emax (sumOf sel tableData)
                  (of_Z (Z.of_nat (length tableData)))) 1
  else Some "N/A".

Definition avgMaxTemp : list TableRow -> option string := average tempMax.
Definition avgMinTemp : list TableRow -> option string := average tempMin.

(** A string or null used as a condition. *)
Definition truthy (s : option string) : bool :=
  match s with
  | Some (String _ _) => true
  | _ => false
  end.

(** Which blocks the component renders. *)
Definition showsError (d : DashboardState) : bool := truthy (UIState.error d).

Definition showsSuccess (d : DashboardState) : bool :=
  bool_decide (is_Some (lastQuery d)) && negb (loading d) && negb (truthy (UIState.error d)).

Definition showsLoading (d : DashboardState) : bool := loading d.

Definition showsData (d : DashboardState) : bool :=
  bool_decide (is_Some (chartData d)) && negb (loading d).

Definition showsHelp (d : DashboardState) : bool :=
  negb (bool_decide (is_Some (weatherData d))) && negb (loading d)
  && negb (truthy (UIState.error d)).

End DashboardView.

(** ** backendApi.js: the list of files and the health probe *)

Module BackendOperations.
Import JSNumber Async BackendApi.

Section Operations.
Context {U Body : Type}.

(** What the backend does with a [GET] whose body is a [Body]. *)
Variable on_request : list Call -> string -> JsError + option Body.

Definition api_get (url : string) : M (World U) (option Body) := fun w =>
  (on_request (calls w) url, {| ui := ui w; calls := calls w ++ [GET url] |}).

Definition listWeatherFiles : M (World U) (OperationResult Body) :=
  tryCatch
    (response ← api_get "/weather/list-weather-files";
     mret {| success := true; data := response; error := None |})
    (fun error =>
       let errorMessage := "Failed to fetch weather files" in
       let errorMessage :=
         match response error with
         | Some r =>
             "API Error: " +:+ decimal (status r) +:+ " - "
               +:+ orElse (data_error r) (statusText r)
         | None =>
             if request error
             then "Network error: Unable to reach backend service"
             else orElse (message error) "Unknown error occurred"
         end in
       mret {| success := false; data := None; error := Some errorMessage |}).

Definition checkHealth : M (World U) (OperationResult Body) :=
  tryCatch
    (response ← api_get "/health";
     mret {| success := true; data := response; error := None |})
    (fun error =>
       mret {| success := false; data := None;
               error := Some "Backend service is unavailable" |}).

End Operations.

End BackendOperations.

(** ** weatherApi.js: the direct call to the weather provider *)

Module WeatherApi.
Import JSNumber Async BackendApi.

Definition OPEN_METEO_BASE_URL : string :=
  "https://archive-api.open-meteo.com/v1/archive".

Definition DAILY_VARIABLES : list string :=
  [ "temperature_2m_max"; "temperature_2m_min"; "temperature_2m_mean";
    "apparent_temperature_max"; "apparent_temperature_min";
    "apparent_temperature_mean" ].

(** [l.join(sep)]. *)
Fixpoint join (sep : string) (l : list string) : string :=
  match l with
  | [] => ""
  | [s] => s
  | s :: rest => s +:+ sep +:+ join sep rest
  end.

Record Params := {
  latitude : number;
  longitude : number;
  start_date : string;
  end_date : string;
  daily_variables : string;
  timezone : string
}.

(** The calls [axios.get(url, { params })] made so far, and what the
    provider answers. *)
Definition Provider : Type :=
  list (string * Params) -> string -> Params -> JsError + option RawSeriesResponse.

Section Fetch.
Variable provider : Provider.

Definition axios_get (url : string) (params : Params)
  : M (list (string * Params)) (option RawSeriesResponse) := fun log =>
  (provider log url params, (log ++ [(url, params)])%list).

(** [new Error(msg)]. *)
Definition Error (msg : string) : JsError :=
  {| response := None; request := false; message := Some msg |}.

Definition fetchWeatherData (latitude longitude : number) (startDate endDate : string)
  : M (list (string * Params)) (OperationResult RawSeriesResponse) :=
  tryCatch
    (let params := {| latitude := latitude; longitude := longitude;
                      start_date := startDate; end_date := endDate;
                      daily_variables := join "," DAILY_VARIABLES;
                      timezone := "auto" |} in
     response ← axios_get OPEN_METEO_BASE_URL params;
     match response with
     | Some body =>
         match daily body with
         | Some _ => mret {| success := true; data := response; error := None |}
         | None => throw (Error "Invalid response format from weather API")
         end
     | None => throw (Error "Invalid response format from weather API")
     end)
    (fun error =>
       let errorMessage := "Failed to fetch weather data" in
       let errorMessage :=
         match response error with
         | Some r => "API Error: " +:+ decimal (status r) +:+ " - " +:+ statusText r
         | None =>
             if request error
             then "Network error: Unable to reach weather service"
             else orElse (message error) "Unknown error occurred"
         end in
       mret {| success := false; data := None; error := Some errorMessage |}).

End Fetch.

End WeatherApi.

(** ** WeatherForm.jsx: editing the fields *)

Module FormEditing.
Import JSDate.

(** The [errors] object as the component holds it: keys with a message or
    with null. *)
Record State := {
  formData : Validation.FormData;
  errors : gmap string (option string)
}.

(** The four calls of [handleInputChange(field, value)], by field. *)
Inductive Edit :=
  | EditLatitude (value : string)
  | EditLongitude (value : string)
  | EditStartDate (value : option Date)
  | EditEndDate (value : option Date).

Definition field (e : Edit) : string :=
  match e with
  | EditLatitude _ => "latitude"
  | EditLongitude _ => "longitude"
  | EditStartDate _ => "startDate"
  | EditEndDate _ => "endDate"
  end.

(** [{ ...prev, [field]: value }]. *)
Definition assign (e : Edit) (prev : Validation.FormData) : Validation.FormData :=
  match e with
  | EditLatitude v =>
      {| Validation.latitude := v; Validation.longitude := Validation.longitude prev;
         Validation.startDate := Validation.startDate prev;
         Validation.endDate := Validation.endDate prev |}
  | EditLongitude v =>
      {| Validation.latitude := Validation.latitude prev; Validation.longitude := v;
         Validation.startDate := Validation.startDate prev;
         Validation.endDate := Validation.endDate prev |}
  | EditStartDate v =>
      {| Validation.latitude := Validation.latitude prev;
         Validation.longitude := Validation.longitude prev;
         Validation.startDate := v; Validation.endDate := Validation.endDate prev |}
  | EditEndDate v =>
      {| Validation.latitude := Validation.latitude prev;
         Validation.longitude := Validation.longitude prev;
         Validation.startDate := Validation.startDate prev; Validation.endDate := v |}
  end.

(** [errors[field]] as a condition. *)
Definition hasError (errors : gmap string (option string)) (key : string) : bool :=
  match errors !! key with
  | Some (Some (String _ _)) => true
  | _ => false
  end.

Definition handleInputChange (e : Edit) (st : State) : State :=
  {| formData := assign e (formData st);
     errors := if hasError (errors st) (field e)
               then <[field e := None]> (errors st)
               else errors st |}.

(** What [handleSubmit] does to this state: the message under [general]
    when the validation fails, the empty object when it passes. *)
Definition handleSubmit (today : Z) (st : State) : State :=
  let validation := Validation.validateFormInputs today (formData st) in
  {| formData := formData st;
     errors := if negb (Validation.isValid validation)
               then {[ "general" := Validation.error validation ]}
               else ∅ |}.

Definition initial : State :=
  {| formData := {| Validation.latitude := ""; Validation.longitude := "";
                    Validation.startDate := None; Validation.endDate := None |};
     errors := ∅ |}.

End FormEditing.

(** * Statements and examples

    The vocabulary of the statements below, and the concrete payloads,
    backends and states they are tried on. *)

Import JSNumber JSDate Async BackendApi UIState Validation.

(** A day of the calendar, as the time value of its midnight (UTC). *)
Definition day (n : Z) : Date := TimeValue (n * msPerDay).

(** The classification of a failed call, in the words of the error
    taxonomy: the server answered with an error status, no answer was
    received, or the request could not be built. *)
Inductive TransportError :=
  | ServerError (status : Z) (msg : string)
  | Unreachable
  | RequestConstructionError (msg : string).

Definition classify (e : JsError) : TransportError :=
  match response e with
  | Some r => ServerError (status r) (orElse (data_error r) (statusText r))
  | None =>
      if request e then Unreachable
      else RequestConstructionError (orElse (message e) "Unknown error occurred")
  end.

Definition describe (t : TransportError) : string :=
  match t with
  | ServerError st msg => "API Error: " +:+ decimal st +:+ " - " +:+ msg
  | Unreachable => "Network error: Unable to reach backend service"
  | RequestConstructionError msg => msg
  end.

Definition storeUrl : string := "/weather/store-weather-data".
Definition contentUrl (filename : option string) : string :=
  "/weather/weather-file-content/" +:+ template filename.

(** The envelope a call ends in, given what the transport did. *)
Definition envelope {A} (outcome : JsError + option A) : OperationResult A :=
  match outcome with
  | inr body => {| success := true; data := body; BackendApi.error := None |}
  | inl err => {| success := false; data := None;
                  BackendApi.error := Some (describe (classify err)) |}
  end.

Definition logged {U} (w : World U) (c : Call) : World U :=
  {| ui := ui w; calls := calls w ++ [c] |}.

(** A backend whose store operation answers 200 with the body [null]. *)
Definition nullBodyBackend : Backend :=
  {| on_post := fun _ _ _ => inr None; on_get := fun _ _ => inr None |}.

(** A backend that stores the file and answers 404 to its retrieval. *)
Definition notFound : JsError :=
  {| response := Some {| status := 404; statusText := "Not Found";
                         data_error := Some "File not found" |};
     request := true; message := Some "Request failed with status code 404" |}.

Definition notFoundBackend : Backend :=
  {| on_post := fun _ _ _ => inr (Some {| filename := Some "w.json" |});
     on_get := fun _ _ => inl notFound |}.

(** The dashboard after a submission, as a function of the one before. *)
Definition withDashboard (d : DashboardState) (w : App) (cs : list Call) : App :=
  {| ui := {| form := form (ui w); dashboard := d |}; calls := cs |}.

Definition failedState (msg : string) (d : DashboardState) : DashboardState :=
  {| loading := false; weatherData := None; chartData := None; tableData := [];
     UIState.error := Some msg; lastQuery := lastQuery d |}.

Definition unexpectedState (d : DashboardState) : DashboardState :=
  {| loading := false; weatherData := weatherData d; chartData := chartData d;
     tableData := tableData d;
     UIState.error := Some "An unexpected error occurred while fetching weather data";
     lastQuery := lastQuery d |}.

Definition loadedState (content : option RawSeriesResponse) (q : LastQuery)
  : DashboardState :=
  {| loading := false; weatherData := content;
     chartData := transformDataForChart content;
     tableData := transformDataForTable content;
     UIState.error := None; lastQuery := Some q |}.

Definition storeRequest (fd : Submission) (s e : string) : StoreRequest :=
  {| BackendApi.latitude := UIState.latitude fd;
     BackendApi.longitude := UIState.longitude fd;
     start_date := s; end_date := e |}.

(** A form with latitude 200, a longitude that is no number and no dates,
    in front of a dashboard that has not been used yet. *)
Definition form200 : App :=
  {| ui := {| form := {| formData := {| Validation.latitude := "200";
                                        Validation.longitude := "abc";
                                        Validation.startDate := None;
                                        Validation.endDate := None |};
                         errors := {| general := None |} |};
              dashboard := initialDashboard |};
     calls := [] |}.

(** A backend whose store operation answers 500. *)
Definition serverDown : JsError :=
  {| response := Some {| status := 500; statusText := "Internal Server Error";
                         data_error := Some "Failed to fetch weather data" |};
     request := true; message := Some "Request failed with status code 500" |}.

Definition failingStoreBackend : Backend :=
  {| on_post := fun _ _ _ => inl serverDown;
     on_get := fun _ _ => inr None |}.

(** New York, 2023-01-01 to 2023-01-31. *)
Definition january : Submission :=
  {| UIState.latitude := parseFloat "40.7128";
     UIState.longitude := parseFloat "-74.0060";
     UIState.startDate := Some (day 19358);
     UIState.endDate := Some (day 19388) |}.

(** A dashboard that shows the data of an earlier submission. *)
Definition earlierPayload : RawSeriesResponse :=
  {| daily := Some {| time := Some ["2022-06-01"];
                      temperature_2m_max := Some [Num (parseFloat "21.5")];
                      temperature_2m_min := Some [Num (parseFloat "12.25")];
                      temperature_2m_mean := Some [Num (parseFloat "17")];
                      apparent_temperature_max := None;
                      apparent_temperature_min := None;
                      apparent_temperature_mean := None |} |}.

Definition showingEarlier : App :=
  {| ui := {| form := {| formData := {| Validation.latitude := "40.7128";
                                        Validation.longitude := "-74.0060";
                                        Validation.startDate := Some (day 19358);
                                        Validation.endDate := Some (day 19388) |};
                         errors := {| general := None |} |};
              dashboard := {| loading := false;
                              weatherData := Some earlierPayload;
                              chartData := transformDataForChart (Some earlierPayload);
                              tableData := transformDataForTable (Some earlierPayload);
                              UIState.error := None;
                              lastQuery := None |} |};
     calls := [] |}.

(** A well-formed [daily] object of two days. *)
Definition twoDays : Daily :=
  {| time := Some ["2023-01-01"; "2023-01-02"];
     temperature_2m_max := Some (Num <$> [parseFloat "5.2"; parseFloat "6.1"]);
     temperature_2m_min := Some (Num <$> [parseFloat "-1.3"; parseFloat "0"]);
     temperature_2m_mean := Some (Num <$> [parseFloat "2.1"; parseFloat "3.4"]);
     apparent_temperature_max := Some (Num <$> [parseFloat "3.0"; parseFloat "4.4"]);
     apparent_temperature_min := Some (Num <$> [parseFloat "-4.9"; parseFloat "-2.2"]);
     apparent_temperature_mean := Some (Num <$> [parseFloat "-0.6"; parseFloat "1.5"]) |}.

(** The sentinel. *)
Definition NA : Field := FStr "N/A".

(** What a field of row [i] holds, given the series it is read from: the
    sentinel when the series is missing, too short, or null at [i], and the
    number of the series at [i] otherwise. *)
Definition readsAt (arr : option (list Cell)) (i : nat) (f : Field) : Prop :=
  (f = NA <->
     arr = None
     \/ exists l, arr = Some l /\ ((length l <= i)%nat \/ l !! i = Some Null))
  /\ (forall x, f = FNum x <-> exists l, arr = Some l /\ l !! i = Some (Num x)).

(** The short-series example: two dates, one maximum. *)
Definition shortSeries : RawSeriesResponse :=
  {| daily := Some {| time := Some ["2023-01-01"; "2023-01-02"];
                      temperature_2m_max := Some [Num (parseFloat "5.2")];
                      temperature_2m_min := None;
                      temperature_2m_mean := None;
                      apparent_temperature_max := None;
                      apparent_temperature_min := None;
                      apparent_temperature_mean := None |} |}.

(** A payload in which the provider has no maximum for the day. *)
Definition nullMaximum : RawSeriesResponse :=
  {| daily := Some {| time := Some ["2023-01-01"];
                      temperature_2m_max := Some [Null];
                      temperature_2m_min := Some [Num (parseFloat "-1.3")];
                      temperature_2m_mean := None;
                      apparent_temperature_max := None;
                      apparent_temperature_min := None;
                      apparent_temperature_mean := None |} |}.

(** The series of a [daily] object cut to their first [n] elements. *)
Definition truncateSeries (n : nat) (d : Daily) : Daily :=
  {| time := time d;
     temperature_2m_max := take n <$> temperature_2m_max d;
     temperature_2m_min := take n <$> temperature_2m_min d;
     temperature_2m_mean := take n <$> temperature_2m_mean d;
     apparent_temperature_max := take n <$> apparent_temperature_max d;
     apparent_temperature_min := take n <$> apparent_temperature_min d;
     apparent_temperature_mean := take n <$> apparent_temperature_mean d |}.

(** The page the table is on, with a given page size. *)
Definition onPage (p k : Z) : WeatherTable.State :=
  {| WeatherTable.currentPage := p; WeatherTable.itemsPerPage := k |}.

(** What the user does to the table: a click on a page button or an arrow,
    which asks for page [n], or a choice of the page size. *)
Inductive TableEvent :=
  | PageAsked (n : Z)
  | SizeChosen (v : Z).

Definition tableStep {Row} (data : option (list Row)) (st : WeatherTable.State)
    (ev : TableEvent) : WeatherTable.State :=
  match ev with
  | PageAsked n => WeatherTable.handlePageChange data n st
  | SizeChosen v => WeatherTable.handleItemsPerPageChange v st
  end.

Definition positiveSize (ev : TableEvent) : Prop :=
  match ev with
  | PageAsked _ => True
  | SizeChosen v => 0 < v
  end.

(** The date string of a field of the submission, when there is one. *)
Definition isoOf (date : option Date) : option string := d ← date; toISODate d.

(** The dashboard and the call log after [handleFormSubmit], case by case:
    a date that cannot be formatted, a failed store, a store that resolves
    without a body, a failed retrieval, a retrieved payload. *)
Definition submissionOutcome (backend : Backend) (fd : Submission) (w : App) : App :=
  match isoOf (UIState.startDate fd), isoOf (UIState.endDate fd) with
  | Some s, Some e =>
      let req := storeRequest fd s e in
      let c1 := (calls w ++ [POST storeUrl req])%list in
      match on_post backend (calls w) storeUrl req with
      | inl err =>
          withDashboard (failedState (describe (classify err)) (dashboard (ui w))) w c1
      | inr None => withDashboard (unexpectedState (dashboard (ui w))) w c1
      | inr (Some body) =>
          let url := contentUrl (filename body) in
          match on_get backend c1 url with
          | inl err =>
              withDashboard (failedState (describe (classify err)) (dashboard (ui w)))
                w (c1 ++ [GET url])%list
          | inr content =>
              withDashboard
                (loadedState content
                   {| q_latitude := UIState.latitude fd;
                      q_longitude := UIState.longitude fd;
                      q_startDate := s; q_endDate := e; q_filename := filename body |})
                w (c1 ++ [GET url])%list
          end
      end
  | _, _ => withDashboard (unexpectedState (dashboard (ui w))) w (calls w)
  end.

(** The chart and the table are the ones of the payload held. *)
Definition derivedFromPayload (d : DashboardState) : Prop :=
  chartData d = transformDataForChart (weatherData d)
  /\ tableData d = transformDataForTable (weatherData d).

(** A sequence of submissions, each against the backend as it is then. *)
Definition submitAll (subs : list (Backend * Submission)) (w : App) : App :=
  fold_left (fun w bs => (WeatherDashboard.handleFormSubmit bs.1 bs.2 w).2) subs w.

(** A backend that stores and returns a payload. *)
Definition servingBackend (name : string) (payload : RawSeriesResponse) : Backend :=
  {| on_post := fun _ _ _ => inr (Some {| filename := Some name |});
     on_get := fun _ _ => inr (Some payload) |}.

(** A submission whose start date is an invalid [Date]. *)
Definition invalidStart : Submission :=
  {| UIState.latitude := parseFloat "40.7128";
     UIState.longitude := parseFloat "-74.0060";
     UIState.startDate := Some InvalidDate;
     UIState.endDate := Some (day 19388) |}.

Definition listUrl : string := "/weather/list-weather-files".
Definition healthUrl : string := "/health".

(** The parameters [fetchWeatherData] sends. *)
Definition archiveParams (lat lng : number) (s e : string) : WeatherApi.Params :=
  {| WeatherApi.latitude := lat; WeatherApi.longitude := lng;
     WeatherApi.start_date := s; WeatherApi.end_date := e;
     WeatherApi.daily_variables :=
       "temperature_2m_max,temperature_2m_min,temperature_2m_mean,apparent_temperature_max,apparent_temperature_min,apparent_temperature_mean";
     WeatherApi.timezone := "auto" |}.

(** A provider that answers with a payload. *)
Definition answering (payload : option RawSeriesResponse) : WeatherApi.Provider :=
  fun _ _ _ => inr payload.

(** What the user does to the form: an edit of a field, or a submission on
    a day whose midnight is [today]. *)
Inductive FormEvent :=
  | Edited (e : FormEditing.Edit)
  | Submitted (today : Z).

Definition formStep (st : FormEditing.State) (ev : FormEvent) : FormEditing.State :=
  match ev with
  | Edited e => FormEditing.handleInputChange e st
  | Submitted today => FormEditing.handleSubmit today st
  end.

(** The message of the envelope an operation returned. *)
Definition messageOf {A} (r : JsError + OperationResult A) : option string :=
  match r with
  | inr env => BackendApi.error env
  | inl _ => None
  end.





(** Two numbers that are equal, or are the two zeros. *)
Definition sameUpToZeroSign (x y : number) : Prop :=
  x = y \/ exists s s', x = S754_zero s /\ y = S754_zero s'.

Definition isNumber (v : Field) : bool :=
  match v with FNum _ => true | FStr _ => false end.

(** A table of three days, the second without a maximum. *)
Definition threeDays : list TableRow :=
  transformDataForTable
    (Some {| daily := Some {| time := Some ["2023-01-01"; "2023-01-02"; "2023-01-03"];
                              temperature_2m_max :=
                                Some [Num (parseFloat "10"); Null; Num (parseFloat "20")];
                              temperature_2m_min := None;
                              temperature_2m_mean := None;
                              apparent_temperature_max := None;
                              apparent_temperature_min := None;
                              apparent_temperature_mean := None |} |}).




(** * Properties *)

(** ** The platform functions on known values *)

(** [parseFloat] rounds to the nearest binary64 value, ties to even, reads
    the longest numeral and gives NaN when there is none. *)
Lemma parseFloat_samples :
  parseFloat "0.1" = S754_finite false 7205759403792794 (-56)
  /\ parseFloat "5.2" = S754_finite false 5854679515581645 (-50)
  /\ parseFloat "90" = of_Z 90
  /\ parseFloat "  -90.0" = of_Z (-90)
  /\ parseFloat "9007199254740993" = of_Z 9007199254740992
  /\ parseFloat "1e23" = S754_finite false 5960464477539062 24
  /\ parseFloat "1.7976931348623157e308" = S754_finite false 9007199254740991 971
  /\ parseFloat "1.7976931348623159e308" = S754_infinity false
  /\ parseFloat "5e-324" = S754_finite false 1 (-1074)
  /\ parseFloat "2.4703282292062327e-324" = S754_zero false
  /\ parseFloat "-0" = S754_zero true
  /\ parseFloat ".5e1x" = of_Z 5
  /\ parseFloat "1e" = of_Z 1
  /\ parseFloat "-Infinity" = S754_infinity true
  /\ parseFloat "." = S754_nan
  /\ parseFloat "" = S754_nan
  /\ parseFloat "abc" = S754_nan.
Proof. repeat split; vm_compute; reflexivity. Qed.

Lemma toISODate_samples :
  toISODate (TimeValue 0) = Some "1970-01-01"
  /\ toISODate (TimeValue (-1)) = Some "1969-12-31"
  /\ toISODate (TimeValue 951782400000) = Some "2000-02-29"
  /\ toISODate (day 19358) = Some "2023-01-01"
  /\ toISODate (day 19388) = Some "2023-01-31"
  /\ toISODate (day 20088) = Some "2024-12-31"
  /\ toISODate (day 20394) = Some "2025-11-02"
  /\ toISODate (TimeValue 253402300800000) = Some "+010000-01-01"
  /\ toISODate (TimeValue (-62198755200000)) = Some "-000001-01-01"
  /\ toISODate InvalidDate = None.
Proof. repeat split; vm_compute; reflexivity. Qed.

(** ** Comparisons of numbers *)

Lemma SFcompare_swap (x y : number) :
  SFcompare y x = CompOpp <$> SFcompare x y.
Proof.
  destruct x as [sx|sx| |sx mx ex], y as [sy|sy| |sy my ey]; simpl;
    try reflexivity; try (destruct sx; reflexivity); try (destruct sy; reflexivity);
    try (destruct sx, sy; reflexivity).
  destruct sx, sy; simpl; try reflexivity;
    rewrite (Z.compare_antisym ex ey); destruct (ex ?= ey) eqn:He; simpl;
    try reflexivity;
    rewrite !Pos.compare_cont_spec, (Pos.compare_antisym mx my);
    destruct (mx ?= my)%positive; reflexivity.
Qed.

(** Not being below [lo] nor above [hi] is being between them, NaN apart. *)
Lemma between_le (x lo hi : number) :
  isNaN x = false -> isNaN lo = false -> isNaN hi = false ->
  JSNumber.lt x lo || JSNumber.gt x hi = false <-> le lo x = true /\ le x hi = true.
Proof.
  intros Hx Hlo Hhi. unfold JSNumber.lt, JSNumber.gt, le, SFltb, SFleb.
  rewrite (SFcompare_swap x lo), (SFcompare_swap x hi).
  destruct (SFcompare x lo) as [[]|] eqn:E1, (SFcompare x hi) as [[]|] eqn:E2;
    simpl; try (split; [intros; discriminate || (split; reflexivity) | intros [? ?]; discriminate || reflexivity]).
  all: exfalso; destruct x, lo, hi; simpl in *; discriminate.
Qed.

Lemma le_not_NaN (x y : number) : le x y = true -> isNaN x = false /\ isNaN y = false.
Proof.
  unfold le, SFleb. destruct x, y; simpl; intros; try discriminate; split; reflexivity.
Qed.

(** ** Coordinates *)

Lemma validateLatitude_valid (v : string) :
  isValid (validateLatitude v) = true <->
  le (of_Z (-90)) (parseFloat v) = true /\ le (parseFloat v) (of_Z 90) = true.
Proof.
  unfold validateLatitude. destruct (isNaN (parseFloat v)) eqn:HN.
  - cbn [isValid reject]. split; [discriminate|]. intros [H _]. apply le_not_NaN in H. destruct H; congruence.
  - destruct (JSNumber.lt (parseFloat v) (of_Z (-90)) || JSNumber.gt (parseFloat v) (of_Z 90)) eqn:HR.
    + cbn [isValid reject]. split; [discriminate|]. intros H.
      apply between_le in H; [congruence|assumption|reflexivity|reflexivity].
    + cbn [isValid ok]. split; [|reflexivity]. intros _.
      apply between_le; [assumption|reflexivity|reflexivity|assumption].
Qed.

Lemma validateLongitude_valid (v : string) :
  isValid (validateLongitude v) = true <->
  le (of_Z (-180)) (parseFloat v) = true /\ le (parseFloat v) (of_Z 180) = true.
Proof.
  unfold validateLongitude. destruct (isNaN (parseFloat v)) eqn:HN.
  - cbn [isValid reject]. split; [discriminate|]. intros [H _]. apply le_not_NaN in H. destruct H; congruence.
  - destruct (JSNumber.lt (parseFloat v) (of_Z (-180)) || JSNumber.gt (parseFloat v) (of_Z 180)) eqn:HR.
    + cbn [isValid reject]. split; [discriminate|]. intros H.
      apply between_le in H; [congruence|assumption|reflexivity|reflexivity].
    + cbn [isValid ok]. split; [|reflexivity]. intros _.
      apply between_le; [assumption|reflexivity|reflexivity|assumption].
Qed.


(** C10. [parseFloat] reads the longest leading numeral and ignores what
    follows it, so coordinates that are not numerals in their entirety are
    accepted: whatever follows ["45a"], the input is read as 45 and passes
    both checks; ["45abc"] is one such input. *)
Theorem coordinate_validation_accepts_numeric_prefix :
  (forall rest : string,
      wholeNumeral (trimStart ("45a" +:+ rest)) = false
      /\ parseFloat ("45a" +:+ rest) = of_Z 45
      /\ validateLatitude ("45a" +:+ rest) = ok
      /\ validateLongitude ("45a" +:+ rest) = ok)
  /\ wholeNumeral (trimStart "45abc") = false
  /\ parseFloat "45abc" = parseFloat "45"
  /\ validateLatitude "45abc" = ok
  /\ validateLongitude "45abc" = ok.
Proof.
  split; [|repeat split; vm_compute; reflexivity].
  intros rest.
  assert (HP : longestPrefix (trimStart ("45a" +:+ rest))
               = Some (LitDecimal false 45 0, "a" +:+ rest)) by reflexivity.
  assert (HV : parseFloat ("45a" +:+ rest) = of_Z 45).
  { unfold parseFloat. rewrite HP. vm_compute. reflexivity. }
  split; [|split; [|split]].
  - unfold wholeNumeral. rewrite HP. reflexivity.
  - exact HV.
  - unfold validateLatitude. rewrite HV. vm_compute. reflexivity.
  - unfold validateLongitude. rewrite HV. vm_compute. reflexivity.
Qed.

(** ** The date range *)

Lemma ceilDiv_gt (x k : Z) : k < ceilDiv x msPerDay <-> k * msPerDay < x.
Proof.
  unfold ceilDiv, msPerDay. change (1000 * 60 * 60 * 24) with 86400000.
  pose proof (Z.div_mod (- x) 86400000 ltac:(lia)) as Hdm.
  pose proof (Z.mod_pos_bound (- x) 86400000 ltac:(lia)) as Hb.
  lia.
Qed.

Lemma diffDays_exceeds (s e : Z) :
  (exists d, diffDays (TimeValue s) (TimeValue e) = Some d /\ 730 < d)
  <-> 730 * msPerDay < Z.abs (e - s).
Proof.
  unfold diffDays; simpl. split.
  - intros (d & [= <-] & Hd). now apply ceilDiv_gt.
  - intros H. eexists; split; [reflexivity|]. now apply ceilDiv_gt.
Qed.

(** C3, as stated, fails: a single-day query ([start == end]) on a day after
    today is rejected; a range of more than 730 days whose end lies after
    today fails with the future-date message, not the range message; and so
    does, with the inverted-range message, a pair of dates in the wrong
    order that are more than 730 days apart. *)
Lemma validateDateRange_check_order_counterexample :
  validateDateRange (20394 * msPerDay) (Some (day 20395)) (Some (day 20395)) <> ok
  /\ ~ (validateDateRange (20394 * msPerDay) (Some (day 19000)) (Some (day 20395))
          = reject RangeTooLarge
        <-> exists d, diffDays (day 19000) (day 20395) = Some d /\ 730 < d)
  /\ ~ (validateDateRange (20394 * msPerDay) (Some (day 20000)) (Some (day 19000))
          = reject RangeTooLarge
        <-> exists d, diffDays (day 20000) (day 19000) = Some d /\ 730 < d).
Proof.
  split; [|split].
  - vm_compute. discriminate.
  - intros [_ H]. assert (Hr : validateDateRange (20394 * msPerDay) (Some (day 19000))
                           (Some (day 20395)) = reject RangeTooLarge).
    { apply H. eexists; split; [reflexivity|]. vm_compute. reflexivity. }
    vm_compute in Hr. discriminate.
  - intros [_ H].
    assert (Hr : validateDateRange (20394 * msPerDay) (Some (day 20000))
                   (Some (day 19000)) = reject RangeTooLarge).
    { apply H. eexists; split; [reflexivity|]. vm_compute. reflexivity. }
    vm_compute in Hr. discriminate.
Qed.

(** C3, amended.  For two dates that are present: the check fails with the
    inverted-range message exactly when [start > end]; it fails with the
    range message exactly when [start <= end], the end is not after today's
    midnight and the number of days between them,
    [ceil(|end - start| / 1 day)], exceeds 730, that is when more than
    [730 * 86400000] milliseconds separate them.  With [start <= end <= today],
    730 days between them are accepted, 731 are rejected, and [start == end]
    is accepted. *)
Theorem validateDateRange_spec (today : Z) (startDate endDate : Date) :
  (validateDateRange today (Some startDate) (Some endDate) = reject InvertedRange
     <-> JSDate.gt startDate endDate = true)
  /\ (validateDateRange today (Some startDate) (Some endDate) = reject RangeTooLarge
     <-> JSDate.gt startDate endDate = false
         /\ JSDate.gt endDate (TimeValue today) = false
         /\ exists d, diffDays startDate endDate = Some d /\ 730 < d)
  /\ (forall s e : Z, startDate = TimeValue s -> endDate = TimeValue e ->
        (validateDateRange today (Some startDate) (Some endDate) = reject InvertedRange
           <-> e < s)
        /\ (validateDateRange today (Some startDate) (Some endDate) = reject RangeTooLarge
           <-> s <= e <= today /\ 730 * msPerDay < e - s)
        /\ (s <= e <= today -> e - s = 730 * msPerDay ->
            validateDateRange today (Some startDate) (Some endDate) = ok)
        /\ (s <= e <= today -> e - s = 731 * msPerDay ->
            validateDateRange today (Some startDate) (Some endDate) = reject RangeTooLarge)
        /\ (s = e -> e <= today ->
            validateDateRange today (Some startDate) (Some endDate) = ok)).
Proof.
  assert (G1 : validateDateRange today (Some startDate) (Some endDate) = reject InvertedRange
     <-> JSDate.gt startDate endDate = true).
  { unfold validateDateRange. destruct (JSDate.gt startDate endDate).
    - split; reflexivity.
    - split; [|discriminate].
      destruct (JSDate.gt endDate (TimeValue today)); [discriminate|].
      destruct (diffDays startDate endDate) as [d|]; [|discriminate].
      destruct (730 <? d); discriminate. }
  assert (G2 : validateDateRange today (Some startDate) (Some endDate) = reject RangeTooLarge
     <-> JSDate.gt startDate endDate = false
         /\ JSDate.gt endDate (TimeValue today) = false
         /\ exists d, diffDays startDate endDate = Some d /\ 730 < d).
  { unfold validateDateRange. destruct (JSDate.gt startDate endDate).
    - split; [discriminate|]. intros [? _]; discriminate.
    - destruct (JSDate.gt endDate (TimeValue today)).
      + split; [discriminate|]. intros (_ & ? & _); discriminate.
      + destruct (diffDays startDate endDate) as [d|].
        * destruct (730 <? d) eqn:Hd.
          -- split; [|reflexivity]. intros _. repeat split; try reflexivity.
             exists d. split; [reflexivity|]. now apply Z.ltb_lt.
          -- split; [discriminate|]. intros (_ & _ & d' & [= <-] & Hlt).
             apply Z.ltb_ge in Hd. lia.
        * split; [discriminate|]. intros (_ & _ & d' & ? & _); discriminate. }
  split; [exact G1|]. split; [exact G2|].
  intros s e -> ->.
  assert (G3 : validateDateRange today (Some (TimeValue s)) (Some (TimeValue e))
               = reject RangeTooLarge <-> s <= e <= today /\ 730 * msPerDay < e - s).
  { rewrite G2, diffDays_exceeds. simpl. rewrite !Z.ltb_ge. split.
    - intros (? & ? & ?). split; lia.
    - intros [[? ?] ?]. repeat split; lia. }
  split; [|split; [|split; [|split]]].
  - rewrite G1. simpl. apply Z.ltb_lt.
  - exact G3.
  - intros Hord Hspan. unfold validateDateRange. simpl.
    destruct (e <? s) eqn:E1; [apply Z.ltb_lt in E1; lia|].
    destruct (today <? e) eqn:E2; [apply Z.ltb_lt in E2; lia|].
    destruct (730 <? ceilDiv (Z.abs (e - s)) msPerDay) eqn:E3; [|reflexivity].
    apply Z.ltb_lt, ceilDiv_gt in E3. lia.
  - intros Hord Hspan. apply G3. split; [exact Hord|]. unfold msPerDay in *. lia.
  - intros -> Hle. unfold validateDateRange. simpl.
    rewrite Z.ltb_irrefl.
    destruct (today <? e) eqn:E2; [apply Z.ltb_lt in E2; lia|].
    rewrite Z.sub_diag. reflexivity.
Qed.

(** C3, amended, at 2023-01-01 .. 2024-12-31 seen from 2025-11-02: exactly
    730 days. *)
Lemma validateDateRange_spec_witness :
  validateDateRange (20394 * msPerDay) (Some (day 19358)) (Some (day 20088)) = ok.
Proof.
  destruct (validateDateRange_spec (20394 * msPerDay) (day 19358) (day 20088))
    as (_ & _ & H).
  destruct (H (19358 * msPerDay) (20088 * msPerDay) eq_refl eq_refl)
    as (_ & _ & H730 & _).
  apply H730; vm_compute; [split; discriminate | reflexivity].
Defined.

(** ** The two network operations *)

Lemma storeWeatherData_run {U} (backend : Backend) (lat lng : number)
    (s e : string) (w : World U) :
  let req := {| BackendApi.latitude := lat; BackendApi.longitude := lng; start_date := s; end_date := e |} in
  storeWeatherData backend lat lng s e w
  = (inr (envelope (on_post backend (calls w) storeUrl req)), logged w (POST storeUrl req)).
Proof.
  unfold storeWeatherData, tryCatch, api_post, mbind, M_bind, mret, M_ret, storeUrl; simpl.
  destruct (on_post backend (calls w) _ _) as [err|body]; simpl; [|reflexivity].
  unfold classify. destruct (response err); [reflexivity|].
  destruct (request err); reflexivity.
Qed.

Lemma getWeatherFileContent_run {U} (backend : Backend) (filename : option string)
    (w : World U) :
  getWeatherFileContent backend filename w
  = (inr (envelope (on_get backend (calls w) (contentUrl filename))),
     logged w (GET (contentUrl filename))).
Proof.
  unfold getWeatherFileContent, tryCatch, api_get, mbind, M_bind, mret, M_ret, contentUrl; simpl.
  destruct (on_get backend (calls w) _) as [err|body]; simpl; [|reflexivity].
  unfold classify. destruct (response err); [reflexivity|].
  destruct (request err); reflexivity.
Qed.

(** C8, as stated, fails: when the transport resolves with a null body the
    envelope has [success = true] and [data = null]. *)
Lemma envelope_null_body_counterexample :
  exists r w',
    storeWeatherData nullBodyBackend (of_Z 10) (of_Z 20) "2023-01-01" "2023-01-31"
      {| ui := tt; calls := [] |} = (inr r, w')
    /\ ~ (success r = true <-> data r <> None /\ BackendApi.error r = None).
Proof.
  eexists _, _. split; [reflexivity|]. simpl. intros [H _].
  destruct (H eq_refl) as [Hd _]. apply Hd. reflexivity.
Qed.

(** C8, amended.  Both network operations return an envelope and never
    throw; in it [success = true] iff [error] is null, and [data] is then the
    body of the response as it was received (null when the body is null);
    [success = false] iff [data] is null and [error] is a string. *)
Theorem network_envelope_invariant {U} (backend : Backend) (w : World U)
    (lat lng : number) (s e : string) (filename : option string) :
  (exists r w', storeWeatherData backend lat lng s e w = (inr r, w')
     /\ (success r = true <-> BackendApi.error r = None)
     /\ (success r = true ->
         on_post backend (calls w) storeUrl
           {| BackendApi.latitude := lat; BackendApi.longitude := lng; start_date := s; end_date := e |}
         = inr (data r))
     /\ (success r = false <-> data r = None /\ exists msg, BackendApi.error r = Some msg))
  /\ (exists r w', getWeatherFileContent backend filename w = (inr r, w')
     /\ (success r = true <-> BackendApi.error r = None)
     /\ (success r = true ->
         on_get backend (calls w) (contentUrl filename) = inr (data r))
     /\ (success r = false <-> data r = None /\ exists msg, BackendApi.error r = Some msg)).
Proof.
  split.
  - eexists _, _. split; [apply storeWeatherData_run|].
    destruct (on_post backend (calls w) storeUrl _) as [err|body]; simpl.
    + split; [split; discriminate|]. split; [discriminate|].
      split; [eauto | reflexivity].
    + split; [split; reflexivity|]. split; [reflexivity|].
      split; [discriminate | intros (_ & m & ?); discriminate].
  - eexists _, _. split; [apply getWeatherFileContent_run|].
    destruct (on_get backend (calls w) (contentUrl filename)) as [err|body]; simpl.
    + split; [split; discriminate|]. split; [discriminate|].
      split; [eauto | reflexivity].
    + split; [split; reflexivity|]. split; [reflexivity|].
      split; [discriminate | intros (_ & m & ?); discriminate].
Qed.

(** C8, amended, on a retrieval that answers 404. *)
Lemma network_envelope_invariant_witness :
  exists r w',
    getWeatherFileContent notFoundBackend (Some "w.json") {| ui := tt; calls := [] |}
      = (inr r, w')
    /\ (success r = false <-> data r = None /\ exists msg, BackendApi.error r = Some msg).
Proof.
  destruct (network_envelope_invariant notFoundBackend {| ui := tt; calls := [] |}
              (of_Z 10) (of_Z 20) "2023-01-01" "2023-01-31" (Some "w.json"))
    as [_ (r & w' & Hrun & _ & _ & H)].
  exists r, w'. split; [exact Hrun | exact H].
Defined.

(** ** The submission *)

Lemma handleFormSubmit_run (backend : Backend) (fd : Submission) (w : App)
    (a b : Date) (s e : string) :
  UIState.startDate fd = Some a -> toISODate a = Some s ->
  UIState.endDate fd = Some b -> toISODate b = Some e ->
  let req := storeRequest fd s e in
  let c1 := (calls w ++ [POST storeUrl req])%list in
  WeatherDashboard.handleFormSubmit backend fd w
  = (inr tt,
     match on_post backend (calls w) storeUrl req with
     | inl err => withDashboard (failedState (describe (classify err)) (dashboard (ui w))) w c1
     | inr None => withDashboard (unexpectedState (dashboard (ui w))) w c1
     | inr (Some body) =>
         let url := contentUrl (filename body) in
         match on_get backend c1 url with
         | inl err =>
             withDashboard (failedState (describe (classify err)) (dashboard (ui w)))
               w (c1 ++ [GET url])%list
         | inr content =>
             withDashboard
               (loadedState content
                  {| q_latitude := UIState.latitude fd; q_longitude := UIState.longitude fd;
                     q_startDate := s; q_endDate := e; q_filename := filename body |})
               w (c1 ++ [GET url])%list
         end
     end).
Proof.
  intros Ha Hs Hb He req c1.
  unfold WeatherDashboard.handleFormSubmit, tryCatchFinally, tryCatch.
  unfold mbind at 1 2. unfold M_bind at 1 2.
  cbn [setLoading setError onDashboard modify].
  unfold mbind at 1 2, M_bind at 1 2.
  unfold WeatherDashboard.isoDate. rewrite Ha, Hb, Hs, He.
  cbn [mret M_ret].
  unfold mbind at 1, M_bind at 1.
  rewrite storeWeatherData_run. cbn [calls ui dashboard form].
  fold req. fold (storeRequest fd s e). fold req.
  destruct (on_post backend (calls w) storeUrl req) as [err|[body|]];
    cbn -[getWeatherFileContent transformDataForChart transformDataForTable].
  - reflexivity.
  - unfold mbind at 1 2. unfold M_bind at 1 2. unfold mret, M_ret.
    rewrite getWeatherFileContent_run. cbn [calls logged].
    fold req. fold c1.
    destruct (on_get backend c1 (contentUrl (filename body))) as [err|content];
      reflexivity.
  - reflexivity.
Qed.

Lemma validateDateRange_valid_ok (today : Z) (s e : option Date) :
  isValid (validateDateRange today s e) = true -> validateDateRange today s e = ok.
Proof.
  unfold validateDateRange. destruct s as [s|], e as [e|]; try discriminate.
  destruct (JSDate.gt s e); [discriminate|].
  destruct (JSDate.gt e (TimeValue today)); [discriminate|].
  destruct (diffDays s e) as [d|]; [|reflexivity].
  destruct (730 <? d); [discriminate|reflexivity].
Qed.

Lemma invalid_has_message (r : ValidationResult) (today : Z) (fd : FormData) :
  r = validateFormInputs today fd -> isValid r = false ->
  exists msg, Validation.error r = Some msg.
Proof.
  intros -> . unfold validateFormInputs, validateLatitude, validateLongitude, validateDateRange.
  destruct (isNaN (parseFloat (Validation.latitude fd))); [simpl; eauto|].
  destruct (_ || _); [simpl; eauto|].
  destruct (isNaN (parseFloat (Validation.longitude fd))); [simpl; eauto|].
  destruct (_ || _); [simpl; eauto|]. cbn [negb isValid ok].
  destruct (Validation.startDate fd) as [s|], (Validation.endDate fd) as [e|];
    try (simpl; eauto; fail).
  destruct (JSDate.gt s e); [simpl; eauto|].
  destruct (JSDate.gt e (TimeValue today)); [simpl; eauto|].
  destruct (diffDays s e) as [d|]; [|discriminate].
  destruct (730 <? d); [simpl; eauto|discriminate].
Qed.

(** C6. The three checks run in the order latitude, longitude, date range,
    and the first one that fails gives the result.  When the validation
    fails, the submission ends there: the message is stored in the form,
    the dashboard is untouched and no call is made to the backend. *)
Theorem validation_short_circuits_before_network (backend : Backend) (today : Z)
    (w : App) :
  let fd := formData (form (ui w)) in
  let lat := validateLatitude (Validation.latitude fd) in
  let lng := validateLongitude (Validation.longitude fd) in
  let range := validateDateRange today (Validation.startDate fd) (Validation.endDate fd) in
  (isValid lat = false -> validateFormInputs today fd = lat)
  /\ (isValid lat = true -> isValid lng = false -> validateFormInputs today fd = lng)
  /\ (isValid lat = true -> isValid lng = true -> validateFormInputs today fd = range)
  /\ (isValid (validateFormInputs today fd) = false ->
      exists msg,
        Validation.error (validateFormInputs today fd) = Some msg
        /\ WeatherDashboard.submit backend today w
           = (inr tt,
              {| ui := {| form := {| formData := fd; errors := {| general := Some msg |} |};
                          dashboard := dashboard (ui w) |};
                 calls := calls w |})).
Proof.
  intros fd lat lng range. split; [|split; [|split]].
  - intros H. unfold validateFormInputs. fold lat. rewrite H. reflexivity.
  - intros H1 H2. unfold validateFormInputs. fold lat lng. rewrite H1, H2. reflexivity.
  - intros H1 H2. unfold validateFormInputs. fold lat lng range. rewrite H1, H2.
    cbn [negb]. destruct (isValid range) eqn:H3; [|reflexivity].
    symmetry. apply validateDateRange_valid_ok. exact H3.
  - intros H. destruct (invalid_has_message _ today fd eq_refl H) as [msg Hmsg].
    exists msg. split; [exact Hmsg|].
    unfold WeatherDashboard.submit, WeatherForm.handleSubmit. fold fd.
    rewrite H, Hmsg. reflexivity.
Qed.

(** C6 at latitude 200: the range message of the latitude, whatever the
    other fields hold, and no call. *)
Lemma validation_short_circuits_before_network_witness :
  exists w',
    WeatherDashboard.submit nullBodyBackend 0 form200 = (inr tt, w')
    /\ general (errors (form (ui w'))) = Some LatitudeOutOfRange
    /\ calls w' = [].
Proof.
  destruct (validation_short_circuits_before_network nullBodyBackend 0 form200)
    as (_ & _ & _ & H).
  destruct (H eq_refl) as (msg & Hmsg & Hrun).
  eexists. split; [exact Hrun|]. split; [|reflexivity].
  cbn [general errors form ui]. rewrite <- Hmsg. reflexivity.
Defined.

(** C7. When the transport of the store step reports an error status, the
    submission ends with the message ["API Error: <status> - <message>"],
    where the message is the one the server gave (the status text when it
    gave none); the only call made is the store request, the retrieval is
    never started.  Both network operations shape a rejected call in the
    same way, by the three-way classification. *)
Theorem store_server_error_fails_without_fetch (backend : Backend)
    (fd : Submission) (w : App) (a b : Date) (s e : string)
    (err : JsError) (r : ErrorResponse) :
  UIState.startDate fd = Some a -> toISODate a = Some s ->
  UIState.endDate fd = Some b -> toISODate b = Some e ->
  on_post backend (calls w) storeUrl (storeRequest fd s e) = inl err ->
  response err = Some r ->
  (exists w',
      WeatherDashboard.handleFormSubmit backend fd w = (inr tt, w')
      /\ UIState.error (dashboard (ui w'))
         = Some ("API Error: " +:+ decimal (status r) +:+ " - "
                   +:+ orElse (data_error r) (statusText r))
      /\ (forall c m, data_error r = Some (String c m) ->
          UIState.error (dashboard (ui w'))
          = Some ("API Error: " +:+ decimal (status r) +:+ " - " +:+ String c m))
      /\ loading (dashboard (ui w')) = false
      /\ calls w' = (calls w ++ [POST storeUrl (storeRequest fd s e)])%list)
  /\ (forall (U : Type) (v : World U) (lat lng : number) (s' e' : string)
             (name : option string) (e1 e2 : JsError),
        on_post backend (calls v) storeUrl
          {| BackendApi.latitude := lat; BackendApi.longitude := lng;
             start_date := s'; end_date := e' |} = inl e1 ->
        on_get backend (calls v) (contentUrl name) = inl e2 ->
        (storeWeatherData backend lat lng s' e' v).1
          = inr {| success := false; data := None;
                   BackendApi.error := Some (describe (classify e1)) |}
        /\ (getWeatherFileContent backend name v).1
          = inr {| success := false; data := None;
                   BackendApi.error := Some (describe (classify e2)) |}).
Proof.
  intros Ha Hs Hb He Hpost Hresp. split.
  - eexists. split; [apply (handleFormSubmit_run backend fd w a b s e Ha Hs Hb He)|].
    cbv zeta. rewrite Hpost. cbn [withDashboard ui dashboard failedState UIState.error loading calls].
    unfold classify. rewrite Hresp. cbn [describe].
    split; [reflexivity|]. split; [|split; reflexivity].
    intros c m ->. reflexivity.
  - intros U v lat lng s' e' name e1 e2 H1 H2.
    rewrite storeWeatherData_run, getWeatherFileContent_run. cbn [fst].
    rewrite H1, H2. split; reflexivity.
Qed.

(** C7 on a store operation that answers 500. *)
Lemma store_server_error_fails_without_fetch_witness :
  exists w',
    WeatherDashboard.handleFormSubmit failingStoreBackend january showingEarlier
      = (inr tt, w')
    /\ UIState.error (dashboard (ui w'))
       = Some "API Error: 500 - Failed to fetch weather data"
    /\ calls w' = [POST storeUrl (storeRequest january "2023-01-01" "2023-01-31")].
Proof.
  destruct (store_server_error_fails_without_fetch failingStoreBackend january
              showingEarlier (day 19358) (day 19388) "2023-01-01" "2023-01-31"
              serverDown
              {| status := 500; statusText := "Internal Server Error";
                 data_error := Some "Failed to fetch weather data" |}
              eq_refl eq_refl eq_refl eq_refl eq_refl eq_refl)
    as [(w' & Hrun & Herr & _ & _ & Hcalls) _].
  exists w'. split; [exact Hrun|]. split; [exact Herr | exact Hcalls].
Defined.

(** C9. When the store step fails, or the store step succeeds and the
    retrieval fails, the dashboard ends with the raw payload and the chart
    null and the table empty, whatever it showed before, next to the message
    of the failed step. *)
Theorem failed_step_clears_derived_state (backend : Backend) (fd : Submission)
    (w : App) (a b : Date) (s e : string) :
  UIState.startDate fd = Some a -> toISODate a = Some s ->
  UIState.endDate fd = Some b -> toISODate b = Some e ->
  let req := storeRequest fd s e in
  let c1 := (calls w ++ [POST storeUrl req])%list in
  (forall err, on_post backend (calls w) storeUrl req = inl err ->
     exists w',
       WeatherDashboard.handleFormSubmit backend fd w = (inr tt, w')
       /\ weatherData (dashboard (ui w')) = None
       /\ chartData (dashboard (ui w')) = None
       /\ tableData (dashboard (ui w')) = []
       /\ UIState.error (dashboard (ui w')) = Some (describe (classify err)))
  /\ (forall body err,
     on_post backend (calls w) storeUrl req = inr (Some body) ->
     on_get backend c1 (contentUrl (filename body)) = inl err ->
     exists w',
       WeatherDashboard.handleFormSubmit backend fd w = (inr tt, w')
       /\ weatherData (dashboard (ui w')) = None
       /\ chartData (dashboard (ui w')) = None
       /\ tableData (dashboard (ui w')) = []
       /\ UIState.error (dashboard (ui w')) = Some (describe (classify err))).
Proof.
  intros Ha Hs Hb He req c1. split.
  - intros err Hpost. eexists.
    split; [apply (handleFormSubmit_run backend fd w a b s e Ha Hs Hb He)|].
    cbv zeta. fold req. rewrite Hpost. repeat split.
  - intros body err Hpost Hget. eexists.
    split; [apply (handleFormSubmit_run backend fd w a b s e Ha Hs Hb He)|].
    cbv zeta. fold req. rewrite Hpost. fold c1. rewrite Hget. repeat split.
Qed.

(** C9 on a dashboard that shows earlier data, with a retrieval that
    answers 404. *)
Lemma failed_step_clears_derived_state_witness :
  exists w',
    WeatherDashboard.handleFormSubmit notFoundBackend january showingEarlier
      = (inr tt, w')
    /\ weatherData (dashboard (ui showingEarlier)) = Some earlierPayload
    /\ weatherData (dashboard (ui w')) = None
    /\ chartData (dashboard (ui w')) = None
    /\ tableData (dashboard (ui w')) = []
    /\ UIState.error (dashboard (ui w')) = Some "API Error: 404 - File not found".
Proof.
  destruct (failed_step_clears_derived_state notFoundBackend january showingEarlier
              (day 19358) (day 19388) "2023-01-01" "2023-01-31"
              eq_refl eq_refl eq_refl eq_refl) as [_ H].
  destruct (H {| filename := Some "w.json" |} notFound eq_refl eq_refl)
    as (w' & Hrun & H1 & H2 & H3 & H4).
  exists w'. split; [exact Hrun|]. split; [reflexivity|].
  split; [exact H1|]. split; [exact H2|]. split; [exact H3 | exact H4].
Defined.

(** ** The table *)

(** A column of the table: what [p] reads in each row. *)
Lemma imap_column {A B C} (g : nat -> A -> B) (p : B -> C) (l : list A)
    (col : list C) :
  length col = length l ->
  (forall i a c, l !! i = Some a -> col !! i = Some c -> p (g i a) = c) ->
  p <$> imap g l = col.
Proof.
  intros Hlen Hpt. apply list_eq. intros i.
  rewrite list_lookup_fmap, list_lookup_imap.
  destruct (l !! i) as [a|] eqn:Ha; simpl.
  - destruct (col !! i) as [c|] eqn:Hc.
    + f_equal. now apply Hpt.
    + apply lookup_lt_Some in Ha. apply lookup_ge_None in Hc. lia.
  - symmetry. apply lookup_ge_None. apply lookup_ge_None in Ha. lia.
Qed.

Lemma numeric_column (xs : list number) (i : nat) (x : number) :
  (FNum <$> xs) !! i = Some (FNum x) ->
  orNA (optIndex (Some (Num <$> xs)) i) = FNum x.
Proof.
  intros H. rewrite list_lookup_fmap in H.
  unfold optIndex. cbn [mbind option_bind]. rewrite list_lookup_fmap.
  destruct (xs !! i) as [y|]; [|discriminate].
  injection H as ->. reflexivity.
Qed.

(** C1. On a well-formed payload, with [n] dates and six series of [n]
    numbers each, the table has [n] rows; their ids are [1 .. n] in order,
    their dates are the dates of the payload, and each of the six columns is
    the corresponding series, number for number. *)
Theorem transformDataForTable_well_formed (d : Daily) (dates : list string)
    (tmax tmin tmean amax amin amean : list number) :
  time d = Some dates ->
  temperature_2m_max d = Some (Num <$> tmax) -> length tmax = length dates ->
  temperature_2m_min d = Some (Num <$> tmin) -> length tmin = length dates ->
  temperature_2m_mean d = Some (Num <$> tmean) -> length tmean = length dates ->
  apparent_temperature_max d = Some (Num <$> amax) -> length amax = length dates ->
  apparent_temperature_min d = Some (Num <$> amin) -> length amin = length dates ->
  apparent_temperature_mean d = Some (Num <$> amean) -> length amean = length dates ->
  let rows := transformDataForTable (Some {| daily := Some d |}) in
  length rows = length dates
  /\ id <$> rows = seq 1 (length dates)
  /\ date <$> rows = dates
  /\ tempMax <$> rows = FNum <$> tmax
  /\ tempMin <$> rows = FNum <$> tmin
  /\ tempMean <$> rows = FNum <$> tmean
  /\ apparentTempMax <$> rows = FNum <$> amax
  /\ apparentTempMin <$> rows = FNum <$> amin
  /\ apparentTempMean <$> rows = FNum <$> amean.
Proof.
  intros Ht H1 L1 H2 L2 H3 L3 H4 L4 H5 L5 H6 L6 rows.
  unfold rows, transformDataForTable. cbn [daily]. rewrite Ht, H1, H2, H3, H4, H5, H6.
  cbn [orEmpty default from_option Datatypes.id].
  split; [apply length_imap|].
  split.
  { apply imap_column; [now rewrite length_seq|].
    intros i a c _ Hc. cbn [id]. apply lookup_seq in Hc. lia. }
  split.
  { apply imap_column; [reflexivity|]. intros i a c Ha Hc. cbn [date]. congruence. }
  repeat split; (apply imap_column; [now rewrite length_fmap|]);
    intros i a c _ Hc;
    [cbn [tempMax]|cbn [tempMin]|cbn [tempMean]
    |cbn [apparentTempMax]|cbn [apparentTempMin]|cbn [apparentTempMean]];
    pose proof Hc as Hc'; rewrite list_lookup_fmap in Hc';
    (destruct (_ !! i) as [x|] eqn:Hx in Hc'; [|discriminate]);
    injection Hc' as <-; now apply numeric_column.
Qed.

(** C1 on a payload of two days. *)
Lemma transformDataForTable_well_formed_witness :
  let rows := transformDataForTable (Some {| daily := Some twoDays |}) in
  length rows = 2%nat
  /\ id <$> rows = [1; 2]%nat
  /\ date <$> rows = ["2023-01-01"; "2023-01-02"]
  /\ tempMax <$> rows = [FNum (parseFloat "5.2"); FNum (parseFloat "6.1")].
Proof.
  destruct (transformDataForTable_well_formed twoDays
              ["2023-01-01"; "2023-01-02"]
              [parseFloat "5.2"; parseFloat "6.1"] [parseFloat "-1.3"; parseFloat "0"]
              [parseFloat "2.1"; parseFloat "3.4"] [parseFloat "3.0"; parseFloat "4.4"]
              [parseFloat "-4.9"; parseFloat "-2.2"] [parseFloat "-0.6"; parseFloat "1.5"]
              eq_refl eq_refl eq_refl eq_refl eq_refl eq_refl eq_refl
              eq_refl eq_refl eq_refl eq_refl eq_refl eq_refl)
    as (Hn & Hid & Hd & Hmax & _).
  repeat split; assumption.
Defined.

Lemma orNA_readsAt (arr : option (list Cell)) (i : nat) :
  readsAt arr i (orNA (optIndex arr i)).
Proof.
  unfold readsAt, optIndex, NA. destruct arr as [l|]; cbn [mbind option_bind].
  - destruct (l !! i) as [[x|]|] eqn:Hl; cbn [orNA].
    + split.
      * split; [discriminate|]. intros [?|(l' & [= <-] & [Hlen|Hnull])]; [discriminate| |congruence].
        apply lookup_lt_Some in Hl. lia.
      * intros y. split.
        -- intros [= ->]. eauto.
        -- intros (l' & [= <-] & Hy). congruence.
    + split.
      * split; [|reflexivity]. intros _. right. eauto.
      * intros y. split; [discriminate|]. intros (l' & [= <-] & Hy). congruence.
    + split.
      * split; [|reflexivity]. intros _. right. exists l. split; [reflexivity|].
        left. now apply lookup_ge_None.
      * intros y. split; [discriminate|]. intros (l' & [= <-] & Hy). congruence.
  - split.
    + split; [|reflexivity]. intros _. now left.
    + intros y. split; [discriminate|]. intros (l' & ? & _). discriminate.
Qed.

(** C2, as stated, fails: a series that is present and long enough yields
    the sentinel all the same when its element is null. *)
Lemma transformDataForTable_null_element_counterexample :
  exists d row,
    daily nullMaximum = Some d
    /\ transformDataForTable (Some nullMaximum) !! 0%nat = Some row
    /\ ~ (tempMax row = NA <->
          temperature_2m_max d = None
          \/ exists l, temperature_2m_max d = Some l /\ (length l < 0 + 1)%nat).
Proof.
  eexists _, _. split; [reflexivity|]. split; [reflexivity|].
  cbn. intros [H _]. destruct (H eq_refl) as [?|(l & [= <-] & Hlen)].
  - discriminate.
  - simpl in Hlen. lia.
Qed.

(** C2, amended.  For every payload with a [daily] field and every index
    [i] of its dates, row [i] has id [i + 1] and the date at [i], and each of
    its six fields is read from its own series, independently of the others:
    it is the sentinel exactly when that series is missing, shorter than
    [i + 1], or null at [i], and the number of the series at [i] otherwise.
    A row can so mix numbers and sentinels; with two dates and the single
    maximum 5.2, row 1 has [tempMax = 5.2] and row 2 has [tempMax = "N/A"]. *)
Theorem transformDataForTable_reads_fields_independently :
  (forall (d : Daily) (i : nat) (t : string),
      orEmpty (time d) !! i = Some t ->
      exists row,
        transformDataForTable (Some {| daily := Some d |}) !! i = Some row
        /\ BackendApi.id row = (i + 1)%nat
        /\ date row = t
        /\ readsAt (temperature_2m_max d) i (tempMax row)
        /\ readsAt (temperature_2m_min d) i (tempMin row)
        /\ readsAt (temperature_2m_mean d) i (tempMean row)
        /\ readsAt (apparent_temperature_max d) i (apparentTempMax row)
        /\ readsAt (apparent_temperature_min d) i (apparentTempMin row)
        /\ readsAt (apparent_temperature_mean d) i (apparentTempMean row))
  /\ transformDataForTable (Some shortSeries)
     = [ {| id := 1; date := "2023-01-01"; tempMax := FNum (parseFloat "5.2");
            tempMin := NA; tempMean := NA; apparentTempMax := NA;
            apparentTempMin := NA; apparentTempMean := NA |};
         {| id := 2; date := "2023-01-02"; tempMax := NA;
            tempMin := NA; tempMean := NA; apparentTempMax := NA;
            apparentTempMin := NA; apparentTempMean := NA |} ].
Proof.
  split; [|reflexivity].
  intros d i t Ht. eexists. split.
  - unfold transformDataForTable. cbn [daily]. rewrite list_lookup_imap, Ht. reflexivity.
  - cbn [BackendApi.id date tempMax tempMin tempMean apparentTempMax apparentTempMin
           apparentTempMean].
    repeat split; try reflexivity; apply orNA_readsAt.
Qed.

(** C2, amended, on a row that mixes a sentinel and a number. *)
Lemma transformDataForTable_reads_fields_independently_witness :
  exists row,
    transformDataForTable (Some nullMaximum) !! 0%nat = Some row
    /\ tempMax row = NA
    /\ tempMin row = FNum (parseFloat "-1.3").
Proof.
  destruct transformDataForTable_reads_fields_independently as [H _].
  destruct (H {| time := Some ["2023-01-01"];
                 temperature_2m_max := Some [Null];
                 temperature_2m_min := Some [Num (parseFloat "-1.3")];
                 temperature_2m_mean := None;
                 apparent_temperature_max := None;
                 apparent_temperature_min := None;
                 apparent_temperature_mean := None |} 0%nat "2023-01-01" eq_refl)
    as (row & Hrow & _ & _ & [Hmax _] & [_ Hmin] & _).
  exists row. split; [exact Hrow|]. split.
  - apply Hmax. right. eexists. split; [reflexivity|]. right. reflexivity.
  - apply Hmin. eexists. split; reflexivity.
Defined.

(** ** The chart *)

(** C5, as stated, fails: the three series are not named
    ["Max Temperature"], ["Min Temperature"] and ["Mean Temperature"]; their
    names end with the unit. *)
Lemma transformDataForChart_label_counterexample :
  exists chart,
    transformDataForChart (Some shortSeries) = Some chart
    /\ label <$> datasets chart
       <> ["Max Temperature"; "Min Temperature"; "Mean Temperature"].
Proof.
  eexists. split; [reflexivity|]. cbn. discriminate.
Qed.

(** C5, amended.  The result is null exactly when the payload is null or
    has no [daily] field.  Otherwise the labels are [daily.time] (empty when
    missing) and there are exactly three series, in this order and with
    these names: ["Max Temperature (°C)"], ["Min Temperature (°C)"],
    ["Mean Temperature (°C)"], each holding the field of [daily] of the same
    name, and the empty sequence when that field is missing. *)
Theorem transformDataForChart_spec (weatherData : option RawSeriesResponse) :
  (transformDataForChart weatherData = None <->
     weatherData = None \/ exists w, weatherData = Some w /\ daily w = None)
  /\ (forall w d, weatherData = Some w -> daily w = Some d ->
      exists chart,
        transformDataForChart weatherData = Some chart
        /\ labels chart = default [] (time d)
        /\ label <$> datasets chart
           = ["Max Temperature (°C)"; "Min Temperature (°C)"; "Mean Temperature (°C)"]
        /\ Chart.data <$> datasets chart
           = [ default [] (temperature_2m_max d);
               default [] (temperature_2m_min d);
               default [] (temperature_2m_mean d) ]).
Proof.
  split.
  - destruct weatherData as [w|]; cbn.
    + destruct (daily w) as [d|] eqn:Hd.
      * split; [discriminate|]. intros [?|(w' & [= <-] & ?)]; congruence.
      * split; [|reflexivity]. intros _. right. eauto.
    + split; [|reflexivity]. intros _. now left.
  - intros w d -> Hd. eexists. cbn. rewrite Hd. repeat split.
Qed.

(** C5, amended, on the short-series payload. *)
Lemma transformDataForChart_spec_witness :
  exists chart,
    transformDataForChart (Some shortSeries) = Some chart
    /\ labels chart = ["2023-01-01"; "2023-01-02"]
    /\ Chart.data <$> datasets chart = [[Num (parseFloat "5.2")]; []; []].
Proof.
  destruct (transformDataForChart_spec (Some shortSeries)) as [_ H].
  destruct (H shortSeries _ eq_refl eq_refl) as (chart & Hc & Hl & _ & Hp).
  exists chart. split; [exact Hc|]. split; [exact Hl | exact Hp].
Defined.

(** * Further properties *)

(** ** The two transformers together *)

(** X1. For every payload with a [daily] field, whatever its series hold,
    the table has one row per date, with the ids [1 .. n] and the dates in
    their order, and the chart has these same dates as its labels. *)
Theorem table_and_chart_follow_dates (w : RawSeriesResponse) (d : Daily) :
  daily w = Some d ->
  let rows := transformDataForTable (Some w) in
  length rows = length (orEmpty (time d))
  /\ BackendApi.id <$> rows = seq 1 (length (orEmpty (time d)))
  /\ date <$> rows = orEmpty (time d)
  /\ labels <$> transformDataForChart (Some w) = Some (date <$> rows).
Proof.
  intros Hd rows. unfold rows, transformDataForTable, transformDataForChart.
  rewrite Hd.
  assert (Hdates : date <$> imap (fun index date =>
     {| id := index + 1; date := date;
        tempMax := orNA (optIndex (temperature_2m_max d) index);
        tempMin := orNA (optIndex (temperature_2m_min d) index);
        tempMean := orNA (optIndex (temperature_2m_mean d) index);
        apparentTempMax := orNA (optIndex (apparent_temperature_max d) index);
        apparentTempMin := orNA (optIndex (apparent_temperature_min d) index);
        apparentTempMean := orNA (optIndex (apparent_temperature_mean d) index) |})
     (orEmpty (time d)) = orEmpty (time d)).
  { apply imap_column; [reflexivity|]. intros i a c Ha Hc. cbn [date]. congruence. }
  split; [apply length_imap|]. split; [|split].
  - apply imap_column; [now rewrite length_seq|].
    intros i a c _ Hc. cbn [BackendApi.id]. apply lookup_seq in Hc. lia.
  - exact Hdates.
  - cbn [fmap option_fmap option_map labels]. now rewrite Hdates.
Qed.

Lemma table_and_chart_follow_dates_witness :
  let rows := transformDataForTable (Some nullMaximum) in
  length rows = 1%nat
  /\ labels <$> transformDataForChart (Some nullMaximum) = Some (date <$> rows).
Proof.
  destruct (table_and_chart_follow_dates nullMaximum _ eq_refl) as (H1 & _ & _ & H4).
  split; [exact H1 | exact H4].
Defined.

(** X2. The table is empty exactly when the payload is null, has no
    [daily] field, or has no dates in it ([time] missing or empty); the
    chart, for its part, is null only in the first two cases. *)
Theorem table_empty_iff (weatherData : option RawSeriesResponse) :
  (transformDataForTable weatherData = [] <->
     weatherData = None
     \/ (exists w, weatherData = Some w /\ daily w = None)
     \/ (exists w d, weatherData = Some w /\ daily w = Some d
                     /\ (time d = None \/ time d = Some [])))
  /\ (transformDataForChart weatherData = None ->
      transformDataForTable weatherData = []).
Proof.
  split.
  - destruct weatherData as [w|]; cbn; [|split; [tauto | reflexivity]].
    destruct (daily w) as [d|] eqn:Hd.
    + destruct (time d) as [[|t ts]|] eqn:Ht; cbn.
      * split; [|reflexivity]. intros _. right. right. exists w, d. auto.
      * split; [discriminate|].
        intros [?|[(w' & [= <-] & ?)|(w' & d' & [= <-] & Hd' & [?|?])]];
          congruence.
      * split; [|reflexivity]. intros _. right. right. exists w, d. auto.
    + split; [|reflexivity]. intros _. right. left. eauto.
  - destruct weatherData as [w|]; cbn; [|reflexivity].
    destruct (daily w); [discriminate|reflexivity].
Qed.

Lemma table_empty_iff_witness :
  transformDataForTable (Some {| daily := None |}) = [].
Proof.
  destruct (table_empty_iff (Some {| daily := None |})) as [_ H].
  apply H. reflexivity.
Defined.

Lemma optIndex_take (n i : nat) (arr : option (list Cell)) :
  (i < n)%nat -> optIndex (take n <$> arr) i = optIndex arr i.
Proof.
  intros Hi. destruct arr as [l|]; [|reflexivity].
  cbn. now apply lookup_take_lt.
Qed.

(** X3. The table never reads a series beyond the dates: with [n] dates,
    cutting every series to its first [n] elements leaves the table as it
    is. *)
Theorem table_ignores_series_beyond_dates (d : Daily) :
  transformDataForTable
    (Some {| daily := Some (truncateSeries (length (orEmpty (time d))) d) |})
  = transformDataForTable (Some {| daily := Some d |}).
Proof.
  unfold transformDataForTable. cbn [daily truncateSeries time temperature_2m_max
    temperature_2m_min temperature_2m_mean apparent_temperature_max
    apparent_temperature_min apparent_temperature_mean].
  apply imap_ext. intros i t Ht. apply lookup_lt_Some in Ht.
  now rewrite !optIndex_take.
Qed.

(** X4. The three temperature columns of the table hold, row by row, the
    points of the three series of the chart, with the sentinel where the
    series has no point or a null one. *)
Theorem table_columns_from_chart_series (w : RawSeriesResponse) (d : Daily)
    (i : nat) (row : TableRow) :
  daily w = Some d ->
  transformDataForTable (Some w) !! i = Some row ->
  exists chart s1 s2 s3,
    transformDataForChart (Some w) = Some chart
    /\ datasets chart = [s1; s2; s3]
    /\ tempMax row = orNA (Chart.data s1 !! i)
    /\ tempMin row = orNA (Chart.data s2 !! i)
    /\ tempMean row = orNA (Chart.data s3 !! i).
Proof.
  intros Hd Hrow. unfold transformDataForTable, transformDataForChart in *.
  rewrite Hd in *. rewrite list_lookup_imap in Hrow.
  destruct (orEmpty (time d) !! i) as [t|]; [|discriminate].
  injection Hrow as <-. eexists _, _, _, _. split; [reflexivity|].
  split; [reflexivity|]. cbn [tempMax tempMin tempMean Chart.data].
  unfold optIndex, orEmpty.
  destruct (temperature_2m_max d), (temperature_2m_min d), (temperature_2m_mean d);
    cbn; repeat split; reflexivity.
Qed.

Lemma table_columns_from_chart_series_witness :
  exists chart s1 s2 s3,
    transformDataForChart (Some shortSeries) = Some chart
    /\ datasets chart = [s1; s2; s3]
    /\ Chart.data s1 !! 1%nat = None
    /\ Chart.data s2 = [].
Proof.
  destruct (table_columns_from_chart_series shortSeries _ 1%nat _ eq_refl eq_refl)
    as (chart & s1 & s2 & s3 & Hc & Hs & _).
  exists chart, s1, s2, s3. split; [exact Hc|]. split; [exact Hs|].
  injection Hc as <-. injection Hs as <- <- <-. split; reflexivity.
Defined.

(** ** The pages of the table *)

Lemma ceilDiv_bounds (x d : Z) :
  0 < d -> (ceilDiv x d - 1) * d < x <= ceilDiv x d * d.
Proof.
  intros Hd. unfold ceilDiv.
  pose proof (Z.div_mod (- x) d ltac:(lia)) as Hdm.
  pose proof (Z.mod_pos_bound (- x) d Hd) as Hb.
  nia.
Qed.

Lemma slice_window {A} (l : list A) (a b : Z) :
  0 <= a -> 0 <= b ->
  WeatherTable.slice l a (a + b) = take (Z.to_nat b) (drop (Z.to_nat a) l).
Proof.
  intros Ha Hb. unfold WeatherTable.slice.
  destruct (a <? 0) eqn:E1; [apply Z.ltb_lt in E1; lia|].
  destruct (a + b <? 0) eqn:E2; [apply Z.ltb_lt in E2; lia|].
  destruct (Z.le_gt_cases (Z.of_nat (length l)) a) as [Hge|Hlt].
  - rewrite (Z.min_r a), (Z.min_r (a + b)) by lia.
    rewrite (drop_ge l (Z.to_nat a)), (drop_ge l) by lia. now rewrite !take_nil.
  - rewrite (Z.min_l a) by lia.
    destruct (Z.le_gt_cases (a + b) (Z.of_nat (length l))).
    + rewrite (Z.min_l (a + b)) by lia. f_equal. lia.
    + rewrite (Z.min_r (a + b)) by lia. rewrite !take_ge; [reflexivity| |];
        rewrite length_drop; lia.
Qed.

Lemma page_window {A} (d : list A) (p k : Z) :
  1 <= p -> 0 < k ->
  WeatherTable.paginatedData (Some d) (onPage p k)
  = take (Z.to_nat k) (drop (Z.to_nat (p - 1) * Z.to_nat k) d).
Proof.
  intros Hp Hk. unfold WeatherTable.paginatedData, onPage. cbn.
  rewrite slice_window by nia. f_equal. f_equal. nia.
Qed.

Lemma windows_concat {A} (k n : nat) (l : list A) :
  (length l <= n * k)%nat ->
  concat ((fun i => take k (drop (i * k) l)) <$> seq 0 n) = l.
Proof.
  revert l. induction n as [|n IH]; intros l Hlen.
  - destruct l; [reflexivity|simpl in Hlen; lia].
  - cbn [seq fmap list_fmap concat]. rewrite <- fmap_S_seq, <- list_fmap_compose.
    cbn [drop Nat.mul]. transitivity (take k l ++ drop k l)%list; [|apply take_drop].
    f_equal.
    etransitivity; [|apply (IH (drop k l)); rewrite length_drop; lia].
    f_equal. apply list_fmap_ext. intros _ i _. cbn. now rewrite drop_drop.
Qed.

(** X5. With a positive page size, the pages [1 .. totalPages] of the table,
    one after the other, are the rows of the table: no row is lost and none
    is shown twice. *)
Theorem pages_partition_rows {Row} (d : list Row) (k : Z) :
  0 < k ->
  concat ((fun p => WeatherTable.paginatedData (Some d) (onPage p k))
            <$> seqZ 1 (WeatherTable.totalPages (Some d) (onPage 1 k)))
  = d.
Proof.
  intros Hk. unfold WeatherTable.totalPages. cbn [WeatherTable.dataLength
    WeatherTable.itemsPerPage onPage].
  pose proof (ceilDiv_bounds (Z.of_nat (length d)) k Hk) as Hb.
  set (tp := ceilDiv (Z.of_nat (length d)) k) in *.
  unfold seqZ. rewrite <- list_fmap_compose.
  etransitivity; [|apply (windows_concat (Z.to_nat k) (Z.to_nat tp) d); nia].
  f_equal. apply list_fmap_ext. intros _ i _. unfold compose.
  rewrite page_window by lia. f_equal. f_equal. nia.
Qed.

Lemma pages_partition_rows_witness :
  concat ((fun p => WeatherTable.paginatedData (Some (seq 0 25)) (onPage p 10))
            <$> [1; 2; 3])
  = seq 0 25.
Proof. apply (pages_partition_rows (seq 0 25) 10). reflexivity. Defined.

Lemma totalPages_positive {Row} (d : list Row) (st : WeatherTable.State) :
  d <> [] -> 0 < WeatherTable.itemsPerPage st ->
  1 <= WeatherTable.totalPages (Some d) st.
Proof.
  intros Hd Hk. unfold WeatherTable.totalPages. cbn [WeatherTable.dataLength].
  assert (Hlen : 0 < Z.of_nat (length d)) by (destruct d; [congruence|cbn; lia]).
  pose proof (ceilDiv_bounds (Z.of_nat (length d)) _ Hk) as Hb.
  set (c := ceilDiv _ _) in *. nia.
Qed.

Lemma page_length_matches_showing_line_aux {Row} (d : list Row) (p k : Z) :
  0 < k -> 1 <= p <= WeatherTable.totalPages (Some d) (onPage p k) ->
  1 <= Z.of_nat (length (WeatherTable.paginatedData (Some d) (onPage p k))) <= k
  /\ (p < WeatherTable.totalPages (Some d) (onPage p k) ->
      Z.of_nat (length (WeatherTable.paginatedData (Some d) (onPage p k))) = k).
Proof.
  intros Hk Hp. rewrite page_window by lia.
  unfold WeatherTable.totalPages in *.
  cbn [WeatherTable.dataLength WeatherTable.itemsPerPage WeatherTable.currentPage onPage] in *.
  pose proof (ceilDiv_bounds (Z.of_nat (length d)) k Hk) as Hb.
  set (tp := ceilDiv (Z.of_nat (length d)) k) in *.
  rewrite length_take, length_drop. nia.
Qed.

(** X6. On every page from 1 to [totalPages] (the page size being
    positive) the rows shown are as many as the line [Showing a to b] says,
    [b - a + 1]; there is at least one and at most a page size of them, and
    exactly a page size on every page but the last. *)
Theorem page_length_matches_showing_line {Row} (d : list Row) (p k : Z) :
  0 < k -> 1 <= p <= WeatherTable.totalPages (Some d) (onPage p k) ->
  let st := onPage p k in
  let shown := Z.of_nat (length (WeatherTable.paginatedData (Some d) st)) in
  shown = WeatherTable.showingTo (Some d) st - WeatherTable.showingFrom st + 1
  /\ 1 <= shown <= k
  /\ (p < WeatherTable.totalPages (Some d) st -> shown = k).
Proof.
  intros Hk Hp st shown. unfold shown, st. rewrite page_window by lia.
  unfold WeatherTable.totalPages, WeatherTable.showingTo, WeatherTable.showingFrom in *.
  cbn [WeatherTable.dataLength WeatherTable.itemsPerPage WeatherTable.currentPage onPage] in *.
  pose proof (ceilDiv_bounds (Z.of_nat (length d)) k Hk) as Hb.
  set (tp := ceilDiv (Z.of_nat (length d)) k) in *.
  rewrite length_take, length_drop. nia.
Qed.

Lemma page_length_matches_showing_line_witness :
  Z.of_nat (length (WeatherTable.paginatedData (Some (seq 0 25)) (onPage 3 10))) = 5
  /\ WeatherTable.showingFrom (onPage 3 10) = 21
  /\ WeatherTable.showingTo (Some (seq 0 25)) (onPage 3 10) = 25.
Proof.
  destruct (page_length_matches_showing_line (seq 0 25) 3 10 eq_refl)
    as (H & _ & _); [split; discriminate|].
  split; [exact H|]. split; reflexivity.
Defined.

(** X7. [handlePageChange] brings any page number into the pages there
    are: the new page is at least 1, at most [totalPages] when there is a
    page at all, and the page asked for when that one exists; the page size
    is kept, and asking twice changes nothing more.  On the first page the
    left arrow, and on the last page the right arrow, leave the page as it
    is. *)
Theorem handlePageChange_clamps {Row} (data : option (list Row)) (n : Z)
    (st : WeatherTable.State) :
  let st' := WeatherTable.handlePageChange data n st in
  let tp := WeatherTable.totalPages data st in
  WeatherTable.itemsPerPage st' = WeatherTable.itemsPerPage st
  /\ 1 <= WeatherTable.currentPage st'
  /\ (1 <= tp -> WeatherTable.currentPage st' <= tp)
  /\ (1 <= n <= tp -> WeatherTable.currentPage st' = n)
  /\ (tp <= 0 -> WeatherTable.currentPage st' = 1)
  /\ WeatherTable.handlePageChange data n st' = st'
  /\ (WeatherTable.currentPage st = 1 -> WeatherTable.previousPage data st = st)
  /\ (1 <= tp -> WeatherTable.currentPage st = tp -> WeatherTable.nextPage data st = st).
Proof.
  intros st' tp. unfold st', tp, WeatherTable.previousPage, WeatherTable.nextPage,
    WeatherTable.handlePageChange, WeatherTable.totalPages.
  cbn [WeatherTable.itemsPerPage WeatherTable.currentPage].
  set (t := ceilDiv (WeatherTable.dataLength data) (WeatherTable.itemsPerPage st)).
  split; [reflexivity|]. split; [lia|]. split; [lia|]. split; [lia|]. split; [lia|].
  split; [f_equal; lia|]. destruct st as [cp k]. cbn in *. fold t.
  split; intros; f_equal; lia.
Qed.

Lemma handlePageChange_clamps_witness :
  WeatherTable.currentPage
    (WeatherTable.handlePageChange (Some (seq 0 25)) 7 (onPage 1 10)) = 3
  /\ WeatherTable.currentPage
       (WeatherTable.handlePageChange (Some (seq 0 25)) 2 (onPage 1 10)) = 2.
Proof.
  split.
  - destruct (handlePageChange_clamps (Some (seq 0 25)) 7 (onPage 1 10))
      as (_ & H1 & H2 & _).
    specialize (H2 ltac:(vm_compute; discriminate)).
    change (WeatherTable.totalPages (Some (seq 0 25)) (onPage 1 10)) with 3 in H2.
    assert (3 <= WeatherTable.currentPage
                   (WeatherTable.handlePageChange (Some (seq 0 25)) 7 (onPage 1 10)))
      by (vm_compute; discriminate).
    lia.
  - destruct (handlePageChange_clamps (Some (seq 0 25)) 2 (onPage 1 10))
      as (_ & _ & _ & H & _).
    apply H. vm_compute. split; discriminate.
Defined.

(** X8. When the current page is one of the pages [1 .. totalPages], the
    page buttons are [min(5, totalPages)] consecutive page numbers, all of
    them pages that exist, and the current page is one of them. *)
Theorem pageButtons_window {Row} (data : option (list Row)) (st : WeatherTable.State) :
  let tp := WeatherTable.totalPages data st in
  let cp := WeatherTable.currentPage st in
  1 <= cp <= tp ->
  exists first,
    WeatherTable.pageButtons data st = seqZ first (Z.min 5 tp)
    /\ 1 <= first
    /\ first + Z.min 5 tp - 1 <= tp
    /\ first <= cp < first + Z.min 5 tp.
Proof.
  intros tp cp Hcp. unfold WeatherTable.pageButtons. fold tp.
  assert (Hshift : forall first,
             (forall i, WeatherTable.pageNum data st i = first + i) ->
             WeatherTable.pageNum data st <$> seqZ 0 (Z.min 5 tp) = seqZ first (Z.min 5 tp)).
  { intros first Hf. transitivity (Z.add first <$> seqZ 0 (Z.min 5 tp)).
    - apply list_fmap_ext. intros _ i _. apply Hf.
    - rewrite fmap_add_seqZ. f_equal. lia. }
  assert (Hnum : forall i, WeatherTable.pageNum data st i =
             if tp <=? 5 then i + 1 else if cp <=? 3 then i + 1
             else if tp - 2 <=? cp then tp - 4 + i else cp - 2 + i) by reflexivity.
  destruct (tp <=? 5) eqn:E1.
  - exists 1. split; [apply Hshift; intros; rewrite Hnum; lia|].
    apply Z.leb_le in E1. lia.
  - destruct (cp <=? 3) eqn:E2.
    + exists 1. split; [apply Hshift; intros; rewrite Hnum; lia|].
      apply Z.leb_gt in E1. apply Z.leb_le in E2. lia.
    + destruct (tp - 2 <=? cp) eqn:E3.
      * exists (tp - 4). split; [apply Hshift; intros; rewrite Hnum; lia|].
        apply Z.leb_gt in E1, E2. apply Z.leb_le in E3. lia.
      * exists (cp - 2). split; [apply Hshift; intros; rewrite Hnum; lia|].
        apply Z.leb_gt in E1, E2, E3. lia.
Qed.

Lemma pageButtons_window_witness :
  WeatherTable.pageButtons (Some (seq 0 200)) (onPage 19 10) = [16; 17; 18; 19; 20].
Proof.
  destruct (pageButtons_window (Some (seq 0 200)) (onPage 19 10))
    as (first & H & _ & _ & H1 & H2); [vm_compute; split; discriminate|].
  reflexivity.
Defined.

(** X9. A table that has rows never stands on an empty page: from its
    first state, after any clicks on page buttons and arrows and any choices
    of a (positive) page size, the current page is one of
    [1 .. totalPages] and shows at least one row. *)
Theorem table_never_on_empty_page {Row} (d : list Row) (events : list TableEvent) :
  d <> [] -> Forall positiveSize events ->
  let st := fold_left (tableStep (Some d)) events WeatherTable.initial in
  0 < WeatherTable.itemsPerPage st
  /\ 1 <= WeatherTable.currentPage st <= WeatherTable.totalPages (Some d) st
  /\ WeatherTable.paginatedData (Some d) st <> [].
Proof.
  intros Hd Hev.
  assert (Hinv : forall st,
    0 < WeatherTable.itemsPerPage st ->
    1 <= WeatherTable.currentPage st <= WeatherTable.totalPages (Some d) st ->
    let st' := fold_left (tableStep (Some d)) events st in
    0 < WeatherTable.itemsPerPage st'
    /\ 1 <= WeatherTable.currentPage st' <= WeatherTable.totalPages (Some d) st').
  { induction Hev as [|ev evs Hpos _ IH]; intros st Hk Hcp; [cbn; auto|].
    cbn [fold_left]. apply IH.
    - destruct ev; cbn in *; assumption.
    - destruct ev as [n|v]; cbn [tableStep].
      + pose proof (totalPages_positive d st Hd Hk) as Htp.
        unfold WeatherTable.handlePageChange, WeatherTable.totalPages in *.
        cbn [WeatherTable.currentPage WeatherTable.itemsPerPage] in *. lia.
      + pose proof (totalPages_positive d
                      (WeatherTable.handleItemsPerPageChange v st) Hd Hpos).
        cbn [WeatherTable.handleItemsPerPageChange WeatherTable.currentPage] in *. lia. }
  intros st.
  destruct (Hinv WeatherTable.initial) as [Hk Hcp].
  - reflexivity.
  - split; [reflexivity|]. apply (totalPages_positive d WeatherTable.initial Hd). reflexivity.
  - fold st in Hk, Hcp. split; [exact Hk|]. split; [exact Hcp|].
    destruct st as [p k]. cbn [WeatherTable.itemsPerPage WeatherTable.currentPage] in *.
    destruct (page_length_matches_showing_line_aux d p k Hk Hcp) as [H1 _].
    intros Hnil. change {| WeatherTable.currentPage := p; WeatherTable.itemsPerPage := k |}
      with (onPage p k) in Hnil. rewrite Hnil in H1. cbn in H1. lia.
Qed.

Lemma table_never_on_empty_page_witness :
  WeatherTable.paginatedData (Some (seq 0 25))
    (fold_left (tableStep (Some (seq 0 25)))
       [PageAsked 7; SizeChosen 20; PageAsked 2; PageAsked (-3); PageAsked 9]
       WeatherTable.initial)
  <> [].
Proof.
  apply (table_never_on_empty_page (seq 0 25)
           [PageAsked 7; SizeChosen 20; PageAsked 2; PageAsked (-3); PageAsked 9]).
  - discriminate.
  - repeat constructor.
Defined.

(** ** Every outcome of a submission *)

Lemma handleFormSubmit_outcome (backend : Backend) (fd : Submission) (w : App) :
  WeatherDashboard.handleFormSubmit backend fd w
  = (inr tt, submissionOutcome backend fd w).
Proof.
  unfold submissionOutcome, isoOf.
  destruct (UIState.startDate fd) as [a|] eqn:Ha; cbn [mbind option_bind].
  - destruct (toISODate a) as [s|] eqn:Hs.
    + destruct (UIState.endDate fd) as [b|] eqn:Hb; cbn [mbind option_bind].
      * destruct (toISODate b) as [e|] eqn:He.
        -- apply (handleFormSubmit_run backend fd w a b s e Ha Hs Hb He).
        -- unfold WeatherDashboard.handleFormSubmit, tryCatchFinally, tryCatch,
             WeatherDashboard.isoDate, mbind, M_bind.
           rewrite Ha, Hb, Hs, He. reflexivity.
      * unfold WeatherDashboard.handleFormSubmit, tryCatchFinally, tryCatch,
          WeatherDashboard.isoDate, mbind, M_bind.
        rewrite Ha, Hb, Hs. reflexivity.
    + unfold WeatherDashboard.handleFormSubmit, tryCatchFinally, tryCatch,
        WeatherDashboard.isoDate, mbind, M_bind.
      rewrite Ha, Hs. reflexivity.
  - unfold WeatherDashboard.handleFormSubmit, tryCatchFinally, tryCatch,
      WeatherDashboard.isoDate, mbind, M_bind.
    rewrite Ha. reflexivity.
Qed.

Lemma describe_nonempty (err : JsError) : exists c r, describe (classify err) = String c r.
Proof.
  unfold classify. destruct (response err) as [r|]; [cbn; eauto|].
  destruct (request err); [cbn; eauto|]. cbn.
  destruct (message err) as [[|c m]|]; cbn; eauto.
Qed.


(** X11. The chart and the table shown are always those of the payload
    held: if they are before a submission they are after it, whatever its
    outcome, and so they are after any sequence of submissions on a
    dashboard that has just been opened. *)
Theorem derived_state_follows_payload :
  (forall (backend : Backend) (fd : Submission) (w : App),
      derivedFromPayload (dashboard (ui w)) ->
      derivedFromPayload
        (dashboard (ui (WeatherDashboard.handleFormSubmit backend fd w).2)))
  /\ (forall (subs : list (Backend * Submission)) (w : App),
      dashboard (ui w) = initialDashboard ->
      derivedFromPayload (dashboard (ui (submitAll subs w)))).
Proof.
  assert (Hstep : forall backend fd w,
      derivedFromPayload (dashboard (ui w)) ->
      derivedFromPayload
        (dashboard (ui (WeatherDashboard.handleFormSubmit backend fd w).2))).
  { intros backend fd w [Hc Ht]. rewrite handleFormSubmit_outcome. cbn [snd].
    unfold submissionOutcome.
    destruct (isoOf (UIState.startDate fd)) as [s|];
      [destruct (isoOf (UIState.endDate fd)) as [e|]|];
      try (split; [exact Hc | exact Ht]).
    destruct (on_post backend _ _ _) as [err|[body|]];
      [split; reflexivity| |split; [exact Hc | exact Ht]].
    destruct (on_get backend _ _) as [err|content]; split; reflexivity. }
  split; [exact Hstep|].
  intros subs w Hinit.
  assert (Hw : derivedFromPayload (dashboard (ui w))) by (rewrite Hinit; split; reflexivity).
  clear Hinit. revert w Hw. unfold submitAll.
  induction subs as [|[b fd] subs IH]; intros w Hw; [exact Hw|].
  cbn [fold_left]. apply IH. apply Hstep. exact Hw.
Qed.

Lemma derived_state_follows_payload_witness :
  derivedFromPayload
    (dashboard (ui (submitAll [(servingBackend "w.json" shortSeries, january);
                               (failingStoreBackend, january);
                               (nullBodyBackend, invalidStart)] form200))).
Proof.
  destruct derived_state_follows_payload as [_ H]. apply H. reflexivity.
Defined.

(** X12. When a submission has finished, the dashboard shows either the
    error banner or the success banner, never both and never neither, and
    no loading notice; the success banner is shown exactly when the
    submission ended without a message. *)
Theorem one_banner_after_submission (backend : Backend) (fd : Submission) (w : App) :
  let d := dashboard (ui (WeatherDashboard.handleFormSubmit backend fd w).2) in
  DashboardView.showsLoading d = false
  /\ DashboardView.showsError d = negb (DashboardView.showsSuccess d)
  /\ (DashboardView.showsSuccess d = true <-> UIState.error d = None).
Proof.
  rewrite handleFormSubmit_outcome. cbn [snd]. unfold submissionOutcome.
  assert (Hfail : forall msg d0, (exists c r, msg = String c r) ->
    let d := failedState msg d0 in
    DashboardView.showsLoading d = false
    /\ DashboardView.showsError d = negb (DashboardView.showsSuccess d)
    /\ (DashboardView.showsSuccess d = true <-> UIState.error d = None)).
  { intros msg d0 (c & r & ->). unfold DashboardView.showsSuccess, DashboardView.showsError.
    cbn. rewrite andb_false_r. repeat split; discriminate. }
  assert (Hunexp : forall d0,
    let d := unexpectedState d0 in
    DashboardView.showsLoading d = false
    /\ DashboardView.showsError d = negb (DashboardView.showsSuccess d)
    /\ (DashboardView.showsSuccess d = true <-> UIState.error d = None)).
  { intros d0. unfold DashboardView.showsSuccess, DashboardView.showsError.
    cbn. rewrite andb_false_r. repeat split; discriminate. }
  destruct (isoOf (UIState.startDate fd)) as [s|];
    [destruct (isoOf (UIState.endDate fd)) as [e|]|]; try apply Hunexp.
  destruct (on_post backend _ _ _) as [err|[body|]];
    [apply Hfail, describe_nonempty| |apply Hunexp].
  destruct (on_get backend _ _) as [err|content]; [apply Hfail, describe_nonempty|].
  cbn. repeat split.
Qed.

(** X13. An exception inside [handleFormSubmit] (a start or end date that
    is null or an invalid [Date], or a store answer without a body) ends in
    the message of the [catch] block and, unlike a failed step, keeps the
    payload, the chart, the table and the last query of the earlier
    submission, so earlier data stay on screen next to the message.  No
    call is made for a date that cannot be formatted, and only the store
    request for a store answer without a body. *)
Theorem unexpected_exception_keeps_earlier_data (backend : Backend)
    (fd : Submission) (w : App) :
  let w' := (WeatherDashboard.handleFormSubmit backend fd w).2 in
  let kept :=
    UIState.error (dashboard (ui w'))
      = Some "An unexpected error occurred while fetching weather data"
    /\ weatherData (dashboard (ui w')) = weatherData (dashboard (ui w))
    /\ chartData (dashboard (ui w')) = chartData (dashboard (ui w))
    /\ tableData (dashboard (ui w')) = tableData (dashboard (ui w))
    /\ lastQuery (dashboard (ui w')) = lastQuery (dashboard (ui w))
    /\ DashboardView.showsData (dashboard (ui w'))
       = bool_decide (is_Some (chartData (dashboard (ui w)))) in
  (isoOf (UIState.startDate fd) = None \/ isoOf (UIState.endDate fd) = None ->
   kept /\ calls w' = calls w)
  /\ (forall s e,
        isoOf (UIState.startDate fd) = Some s -> isoOf (UIState.endDate fd) = Some e ->
        on_post backend (calls w) storeUrl (storeRequest fd s e) = inr None ->
        kept /\ calls w' = (calls w ++ [POST storeUrl (storeRequest fd s e)])%list).
Proof.
  intros w' kept. unfold kept, w'. rewrite handleFormSubmit_outcome. cbn [snd].
  unfold submissionOutcome. split.
  - intros [H|H]; rewrite H.
    + cbn. unfold DashboardView.showsData. cbn. rewrite andb_true_r. repeat split.
    + destruct (isoOf (UIState.startDate fd)); cbn; unfold DashboardView.showsData;
        cbn; rewrite andb_true_r; repeat split.
  - intros s e Hs He Hpost. rewrite Hs, He, Hpost. cbn.
    unfold DashboardView.showsData. cbn. rewrite andb_true_r. repeat split.
Qed.

Lemma unexpected_exception_keeps_earlier_data_witness :
  let w' := (WeatherDashboard.handleFormSubmit nullBodyBackend invalidStart
               showingEarlier).2 in
  weatherData (dashboard (ui w')) = Some earlierPayload
  /\ DashboardView.showsData (dashboard (ui w')) = true
  /\ DashboardView.showsError (dashboard (ui w')) = true
  /\ calls w' = [].
Proof.
  destruct (unexpected_exception_keeps_earlier_data nullBodyBackend invalidStart
              showingEarlier) as [H _].
  destruct (H (or_introl eq_refl)) as [(He & Hw & _ & _ & _ & Hshow) Hc].
  split; [exact Hw|]. split; [exact Hshow|]. split; [|exact Hc].
  unfold DashboardView.showsError. rewrite He. reflexivity.
Defined.



(** ** From the form to the store request *)

(** X15. Whatever the form holds, a submission of the form only ever sends
    a store request whose latitude lies in [-90, 90] and whose longitude
    lies in [-180, 180], both the numbers [parseFloat] reads from the two
    fields, and whose two date strings are the UTC dates of the start and
    end dates of the form, the start not after the end and the end not after
    today's midnight. *)
Theorem store_request_carries_validated_input (backend : Backend) (today : Z)
    (w : App) :
  let fd := formData (form (ui w)) in
  let w' := (WeatherDashboard.submit backend today w).2 in
  exists extra,
    calls w' = (calls w ++ extra)%list
    /\ forall url body, POST url body ∈ extra ->
         url = storeUrl
         /\ BackendApi.latitude body = parseFloat (Validation.latitude fd)
         /\ BackendApi.longitude body = parseFloat (Validation.longitude fd)
         /\ le (of_Z (-90)) (BackendApi.latitude body) = true
         /\ le (BackendApi.latitude body) (of_Z 90) = true
         /\ le (of_Z (-180)) (BackendApi.longitude body) = true
         /\ le (BackendApi.longitude body) (of_Z 180) = true
         /\ exists a b,
              Validation.startDate fd = Some a /\ Validation.endDate fd = Some b
              /\ toISODate a = Some (start_date body)
              /\ toISODate b = Some (end_date body)
              /\ JSDate.gt a b = false
              /\ JSDate.gt b (TimeValue today) = false.
Proof.
  intros fd w'.
  match goal with
  | |- exists extra, _ /\ forall url body, _ -> @?Q url body => set (ok_request := Q)
  end.
  change (exists extra, calls w' = (calls w ++ extra)%list
                        /\ forall url body, POST url body ∈ extra -> ok_request url body).
  unfold w', WeatherDashboard.submit, WeatherForm.handleSubmit. fold fd.
  destruct (isValid (validateFormInputs today fd)) eqn:Hvalid; cbn [negb].
  2:{ exists []. split; [cbn; symmetry; apply app_nil_r|].
      intros url body Hin. inversion Hin. }
  unfold mbind, M_bind. cbn [setErrors modify].
  rewrite handleFormSubmit_outcome. cbn [snd]. unfold submissionOutcome.
  cbn [UIState.startDate UIState.endDate UIState.latitude UIState.longitude
       calls ui form dashboard].
  (* what the validation has established *)
  assert (Hlat : isValid (validateLatitude (Validation.latitude fd)) = true).
  { unfold validateFormInputs in Hvalid.
    destruct (isValid (validateLatitude (Validation.latitude fd))) eqn:E; [reflexivity|].
    cbn in Hvalid. congruence. }
  assert (Hlng : isValid (validateLongitude (Validation.longitude fd)) = true).
  { unfold validateFormInputs in Hvalid. rewrite Hlat in Hvalid. cbn [negb] in Hvalid.
    destruct (isValid (validateLongitude (Validation.longitude fd))) eqn:E; [reflexivity|].
    cbn in Hvalid. congruence. }
  assert (Hrange : isValid (validateDateRange today (Validation.startDate fd)
                              (Validation.endDate fd)) = true).
  { unfold validateFormInputs in Hvalid. rewrite Hlat, Hlng in Hvalid. cbn [negb] in Hvalid.
    destruct (isValid (validateDateRange today _ _)) eqn:E; [reflexivity|].
    cbn in Hvalid. congruence. }
  apply validateLatitude_valid in Hlat. apply validateLongitude_valid in Hlng.
  assert (Hdates : exists a b,
             Validation.startDate fd = Some a /\ Validation.endDate fd = Some b
             /\ JSDate.gt a b = false /\ JSDate.gt b (TimeValue today) = false).
  { unfold validateDateRange in Hrange.
    destruct (Validation.startDate fd) as [a|], (Validation.endDate fd) as [b|];
      try discriminate.
    exists a, b. destruct (JSDate.gt a b); [discriminate|].
    destruct (JSDate.gt b (TimeValue today)); [discriminate|]. auto. }
  destruct Hdates as (a & b & Ha & Hb & Hab & Hbt).
  assert (Hbody : forall s e dates1 dates2,
             toISODate a = Some s -> toISODate b = Some e ->
             ok_request storeUrl
               (storeRequest {| UIState.latitude := parseFloat (Validation.latitude fd);
                                UIState.longitude := parseFloat (Validation.longitude fd);
                                UIState.startDate := dates1;
                                UIState.endDate := dates2 |} s e)).
  { intros s e d1 d2 Hs He. unfold ok_request. cbn.
    repeat (split; [tauto|]). exists a, b. auto 10. }
  clearbody ok_request.
  unfold isoOf. rewrite Ha, Hb. cbn [mbind option_bind].
  destruct (toISODate a) as [s|] eqn:Hs; [destruct (toISODate b) as [e|] eqn:He|].
  - specialize (Hbody s e (Some a) (Some b) eq_refl eq_refl).
    destruct (on_post backend _ _ _) as [err|[body|]].
    + eexists [_]. split; [reflexivity|]. intros url bd Hin.
      apply list_elem_of_singleton in Hin. injection Hin as -> ->. exact Hbody.
    + destruct (on_get backend _ _) as [err|content];
        (eexists [_; _]; split; [cbn; now rewrite <- app_assoc|]);
        intros url bd Hin; apply elem_of_cons in Hin as [Hin|Hin];
        try (injection Hin as -> ->; exact Hbody);
        apply list_elem_of_singleton in Hin; discriminate.
    + eexists [_]. split; [reflexivity|]. intros url bd Hin.
      apply list_elem_of_singleton in Hin. injection Hin as -> ->. exact Hbody.
  - exists []. split; [cbn; symmetry; apply app_nil_r|]. intros url bd Hin. inversion Hin.
  - exists []. split; [cbn; symmetry; apply app_nil_r|]. intros url bd Hin. inversion Hin.
Qed.

Lemma store_request_carries_validated_input_witness :
  exists body,
    calls (WeatherDashboard.submit (servingBackend "w.json" shortSeries)
             (20394 * msPerDay) showingEarlier).2
    = [POST storeUrl body; GET "/weather/weather-file-content/w.json"]
    /\ le (BackendApi.latitude body) (of_Z 90) = true
    /\ start_date body = "2023-01-01".
Proof.
  destruct (store_request_carries_validated_input (servingBackend "w.json" shortSeries)
              (20394 * msPerDay) showingEarlier) as (extra & Hc & H).
  exists (storeRequest january "2023-01-01" "2023-01-31").
  split; [reflexivity|].
  assert (Hextra : extra = [POST storeUrl (storeRequest january "2023-01-01" "2023-01-31");
                            GET "/weather/weather-file-content/w.json"])
    by (cbn in Hc; symmetry; exact Hc).
  destruct (H storeUrl (storeRequest january "2023-01-01" "2023-01-31"))
    as (_ & _ & _ & _ & Hle & _); [rewrite Hextra; apply elem_of_cons; now left|].
  split; [exact Hle | reflexivity].
Defined.

(** X16. An invalid [Date] (one whose time value is NaN) gets through the
    date check: as the start date it is accepted with any end date that is
    not after today, as the end date with any start date at all.  With valid
    coordinates the form then passes validation, and the submission ends in
    the message of the [catch] block without any call to the backend. *)
Theorem invalid_date_passes_validation (backend : Backend) (today : Z) (w : App)
    (other : Date) :
  let fd := formData (form (ui w)) in
  isValid (validateLatitude (Validation.latitude fd)) = true ->
  isValid (validateLongitude (Validation.longitude fd)) = true ->
  (Validation.startDate fd = Some InvalidDate /\ Validation.endDate fd = Some other
   /\ JSDate.gt other (TimeValue today) = false)
  \/ (Validation.startDate fd = Some other /\ Validation.endDate fd = Some InvalidDate) ->
  validateFormInputs today fd = ok
  /\ exists w',
       WeatherDashboard.submit backend today w = (inr tt, w')
       /\ UIState.error (dashboard (ui w'))
          = Some "An unexpected error occurred while fetching weather data"
       /\ calls w' = calls w.
Proof.
  intros fd Hlat Hlng Hdates.
  assert (Hrange : validateDateRange today (Validation.startDate fd)
                     (Validation.endDate fd) = ok).
  { destruct Hdates as [(-> & -> & Hgt)|(-> & ->)]; unfold validateDateRange.
    - cbn [JSDate.gt]. rewrite Hgt. destruct other; reflexivity.
    - destruct other; reflexivity. }
  assert (Hvalid : validateFormInputs today fd = ok).
  { unfold validateFormInputs. rewrite Hlat, Hlng, Hrange. reflexivity. }
  split; [exact Hvalid|].
  unfold WeatherDashboard.submit, WeatherForm.handleSubmit. fold fd. rewrite Hvalid.
  cbn [negb isValid ok]. unfold mbind, M_bind. cbn [setErrors modify].
  rewrite handleFormSubmit_outcome. eexists. split; [reflexivity|].
  unfold submissionOutcome, isoOf.
  cbn [UIState.startDate UIState.endDate].
  destruct Hdates as [(-> & -> & _)|(-> & ->)]; cbn [mbind option_bind toISODate].
  - split; reflexivity.
  - destruct (toISODate other); split; reflexivity.
Qed.

Lemma invalid_date_passes_validation_witness :
  validateFormInputs (20394 * msPerDay)
    {| Validation.latitude := "40.7128"; Validation.longitude := "-74.0060";
       Validation.startDate := Some (day 30000);
       Validation.endDate := Some InvalidDate |} = ok.
Proof.
  destruct (invalid_date_passes_validation nullBodyBackend (20394 * msPerDay)
              {| ui := {| form := {| formData :=
                                       {| Validation.latitude := "40.7128";
                                          Validation.longitude := "-74.0060";
                                          Validation.startDate := Some (day 30000);
                                          Validation.endDate := Some InvalidDate |};
                                     errors := {| general := None |} |};
                          dashboard := initialDashboard |};
                 calls := [] |}
              (day 30000) eq_refl eq_refl (or_intror (conj eq_refl eq_refl)))
    as [H _].
  exact H.
Defined.

(** ** More on the date range *)

(** X17. For two valid dates the range is accepted exactly when the start
    is not after the end, the end is not after today's midnight and at most
    730 days lie between them.  Hence a range that is accepted today is
    accepted on every later day, and every range inside an accepted range is
    accepted. *)
Theorem accepted_ranges_are_stable (today s e : Z) :
  (validateDateRange today (Some (TimeValue s)) (Some (TimeValue e)) = ok
     <-> s <= e /\ e <= today /\ e - s <= 730 * msPerDay)
  /\ (validateDateRange today (Some (TimeValue s)) (Some (TimeValue e)) = ok ->
      forall today' s' e',
        today <= today' -> s <= s' -> s' <= e' -> e' <= e ->
        validateDateRange today' (Some (TimeValue s')) (Some (TimeValue e')) = ok).
Proof.
  assert (Hiff : forall t a b,
    validateDateRange t (Some (TimeValue a)) (Some (TimeValue b)) = ok
    <-> a <= b /\ b <= t /\ b - a <= 730 * msPerDay).
  { intros t a b. unfold validateDateRange, diffDays. cbn.
    destruct (b <? a) eqn:E1.
    { apply Z.ltb_lt in E1. split; [discriminate|lia]. }
    apply Z.ltb_ge in E1. destruct (t <? b) eqn:E2.
    { apply Z.ltb_lt in E2. split; [discriminate|lia]. }
    apply Z.ltb_ge in E2.
    destruct (730 <? ceilDiv (Z.abs (b - a)) msPerDay) eqn:E3.
    - apply Z.ltb_lt, ceilDiv_gt in E3. split; [discriminate|lia].
    - apply Z.ltb_ge in E3. split; [|reflexivity]. intros _.
      assert (~ 730 * msPerDay < Z.abs (b - a)) by (rewrite <- ceilDiv_gt; lia). lia. }
  split; [apply Hiff|].
  intros Hok today' s' e' H1 H2 H3 H4. apply Hiff. apply Hiff in Hok. lia.
Qed.

Lemma accepted_ranges_are_stable_witness :
  validateDateRange (20500 * msPerDay) (Some (day 19400)) (Some (day 20000)) = ok.
Proof.
  destruct (accepted_ranges_are_stable (20394 * msPerDay) (19358 * msPerDay)
              (20088 * msPerDay)) as [_ H].
  apply H; vm_compute; try reflexivity; discriminate.
Defined.

(** ** The other network operations *)

(** X18. [listWeatherFiles] never throws and makes exactly one call, a GET
    of [/weather/list-weather-files].  It succeeds exactly when the call
    resolves, with the body as data; when the call is rejected the message
    is the one of the three-way classification, the same
    [getWeatherFileContent] gives for the same error. *)
Theorem listWeatherFiles_envelope {U Body} (backend : Backend)
    (on_request : list Call -> string -> JsError + option Body) (w : World U) :
  BackendOperations.listWeatherFiles on_request w
  = (inr (envelope (on_request (calls w) listUrl)), logged w (GET listUrl))
  /\ forall err name,
       on_request (calls w) listUrl = inl err ->
       on_get backend (calls w) (contentUrl name) = inl err ->
       messageOf (BackendOperations.listWeatherFiles on_request w).1
       = messageOf (getWeatherFileContent backend name w).1
       /\ messageOf (BackendOperations.listWeatherFiles on_request w).1
          = Some (describe (classify err)).
Proof.
  assert (Hrun : BackendOperations.listWeatherFiles on_request w
    = (inr (envelope (on_request (calls w) listUrl)), logged w (GET listUrl))).
  { unfold BackendOperations.listWeatherFiles, tryCatch, BackendOperations.api_get,
      mbind, M_bind, mret, M_ret, listUrl; simpl.
    destruct (on_request (calls w) _) as [err|body]; simpl; [|reflexivity].
    unfold classify. destruct (response err); [reflexivity|].
    destruct (request err); reflexivity. }
  split; [exact Hrun|]. intros err name H1 H2.
  rewrite Hrun, getWeatherFileContent_run. cbn [fst]. rewrite H1, H2.
  split; reflexivity.
Qed.

Lemma listWeatherFiles_envelope_witness :
  messageOf
    (BackendOperations.listWeatherFiles (Body := unit) (fun _ _ => inl notFound)
       {| ui := tt; calls := [] |}).1
  = Some "API Error: 404 - File not found".
Proof.
  destruct (listWeatherFiles_envelope (Body := unit) notFoundBackend
              (fun _ _ => inl notFound) {| ui := tt; calls := [] |}) as [_ H].
  destruct (H notFound None eq_refl eq_refl) as [_ ->]. reflexivity.
Defined.

(** X19. [checkHealth] never throws and makes exactly one call, a GET of
    [/health].  Unlike the other operations it does not look at the error:
    every rejected call gives the one message
    ["Backend service is unavailable"]. *)
Theorem checkHealth_one_message {U Body}
    (on_request : list Call -> string -> JsError + option Body) (w : World U) :
  exists r,
    BackendOperations.checkHealth on_request w = (inr r, logged w (GET healthUrl))
    /\ (forall body, on_request (calls w) healthUrl = inr body ->
        r = {| success := true; data := body; BackendApi.error := None |})
    /\ (forall err, on_request (calls w) healthUrl = inl err ->
        r = {| success := false; data := None;
               BackendApi.error := Some "Backend service is unavailable" |}).
Proof.
  unfold BackendOperations.checkHealth, tryCatch, BackendOperations.api_get,
    mbind, M_bind, mret, M_ret, healthUrl; simpl.
  destruct (on_request (calls w) "/health") as [err|body]; simpl;
    eexists; (split; [reflexivity|]); split; intros ? [=]; subst; reflexivity.
Qed.

Lemma checkHealth_one_message_witness :
  (BackendOperations.checkHealth (Body := unit) (fun _ _ => inl serverDown)
     {| ui := tt; calls := [] |}).1
  = (BackendOperations.checkHealth (Body := unit) (fun _ _ => inl notFound)
       {| ui := tt; calls := [] |}).1.
Proof.
  destruct (checkHealth_one_message (Body := unit) (fun _ _ => inl serverDown)
              {| ui := tt; calls := [] |}) as (r1 & H1 & _ & E1).
  destruct (checkHealth_one_message (Body := unit) (fun _ _ => inl notFound)
              {| ui := tt; calls := [] |}) as (r2 & H2 & _ & E2).
  rewrite H1, H2. cbn [fst]. rewrite (E1 _ eq_refl), (E2 _ eq_refl). reflexivity.
Defined.

(** X20. [fetchWeatherData] never throws and makes exactly one call, with
    the six series named in the parameters.  It succeeds exactly when the
    provider answers with a payload that has a [daily] field, so that
    [success = true] iff [data] is not null and [error] is null, and the
    chart made from successful data is never null; an answer without
    [daily] fails with ["Invalid response format from weather API"].
    [success = false] iff [data] is null and [error] is a string. *)
Theorem fetchWeatherData_checks_payload (provider : WeatherApi.Provider)
    (lat lng : number) (s e : string) (log : list (string * WeatherApi.Params)) :
  let outcome := provider log WeatherApi.OPEN_METEO_BASE_URL (archiveParams lat lng s e) in
  exists r,
    WeatherApi.fetchWeatherData provider lat lng s e log
    = (inr r, (log ++ [(WeatherApi.OPEN_METEO_BASE_URL, archiveParams lat lng s e)])%list)
    /\ (success r = true <->
        exists body dl, outcome = inr (Some body) /\ daily body = Some dl)
    /\ (success r = true <-> data r <> None /\ BackendApi.error r = None)
    /\ (success r = true -> outcome = inr (data r)
                            /\ transformDataForChart (data r) <> None)
    /\ (success r = false <-> data r = None /\ exists msg, BackendApi.error r = Some msg)
    /\ (forall body, outcome = inr body ->
        (forall p, body = Some p -> daily p = None) ->
        BackendApi.error r = Some "Invalid response format from weather API")
    /\ (forall err resp, outcome = inl err -> response err = Some resp ->
        BackendApi.error r
        = Some ("API Error: " +:+ decimal (status resp) +:+ " - " +:+ statusText resp)).
Proof.
  intros outcome. unfold WeatherApi.fetchWeatherData, tryCatch, WeatherApi.axios_get,
    mbind, M_bind, mret, M_ret, throw.
  change {| WeatherApi.latitude := lat; WeatherApi.longitude := lng;
            WeatherApi.start_date := s; WeatherApi.end_date := e;
            WeatherApi.daily_variables := WeatherApi.join "," WeatherApi.DAILY_VARIABLES;
            WeatherApi.timezone := "auto" |} with (archiveParams lat lng s e).
  fold outcome. destruct outcome as [err|[body|]] eqn:Hout.
  - eexists. split; [reflexivity|]. cbn.
    split; [split; [discriminate|intros (? & ? & ? & _); discriminate]|].
    split; [split; [discriminate|intros [? _]; congruence]|].
    split; [discriminate|]. split; [split; [eauto|reflexivity]|].
    split; [intros ? [=]|]. intros err' resp [= <-] ->. reflexivity.
  - destruct (daily body) as [dl|] eqn:Hd.
    + eexists. split; [reflexivity|]. cbn.
      split; [split; [eauto|reflexivity]|].
      split; [split; [split; [discriminate|reflexivity]|reflexivity]|].
      split; [intros _; split; [reflexivity|rewrite Hd; discriminate]|].
      split; [split; [discriminate|intros [? _]; discriminate]|].
      split; [|intros ? ? [=]].
      intros b [= <-] H. specialize (H body eq_refl). congruence.
    + eexists. split; [reflexivity|]. cbn.
      split; [split; [discriminate|intros (b & dl & [= <-] & ?); congruence]|].
      split; [split; [discriminate|intros [? _]; congruence]|].
      split; [discriminate|]. split; [split; [eauto|reflexivity]|].
      split; [reflexivity|intros ? ? [=]].
  - eexists. split; [reflexivity|]. cbn.
    split; [split; [discriminate|intros (b & dl & ? & _); discriminate]|].
    split; [split; [discriminate|intros [? _]; congruence]|].
    split; [discriminate|]. split; [split; [eauto|reflexivity]|].
    split; [reflexivity|intros ? ? [=]].
Qed.

Lemma fetchWeatherData_checks_payload_witness :
  messageOf
    (WeatherApi.fetchWeatherData (answering (Some {| daily := None |}))
       (of_Z 10) (of_Z 20) "2023-01-01" "2023-01-31" []).1
  = Some "Invalid response format from weather API".
Proof.
  destruct (fetchWeatherData_checks_payload (answering (Some {| daily := None |}))
              (of_Z 10) (of_Z 20) "2023-01-01" "2023-01-31" [])
    as (r & Hrun & _ & _ & _ & _ & H & _).
  rewrite Hrun. cbn [fst messageOf].
  apply (H (Some {| daily := None |}) eq_refl). intros p [= <-]. reflexivity.
Defined.

(** ** Editing the form *)

Lemma formStep_errors_general (st : FormEditing.State) (ev : FormEvent) :
  (forall key, key <> "general" -> FormEditing.errors st !! key = None) ->
  (forall key, key <> "general" -> FormEditing.errors (formStep st ev) !! key = None)
  /\ forall e, ev = Edited e -> FormEditing.errors (formStep st ev) = FormEditing.errors st.
Proof.
  intros Hshape. destruct ev as [e|today]; cbn [formStep].
  - assert (Hno : FormEditing.hasError (FormEditing.errors st) (FormEditing.field e) = false).
    { unfold FormEditing.hasError. rewrite Hshape; [reflexivity|]. destruct e; discriminate. }
    unfold FormEditing.handleInputChange. cbn [FormEditing.errors]. rewrite Hno.
    split; [exact Hshape|]. reflexivity.
  - split; [|discriminate]. intros key Hkey.
    unfold FormEditing.handleSubmit. cbn [FormEditing.errors].
    destruct (negb _); [apply lookup_singleton_ne; congruence | apply lookup_empty].
Qed.

(** X21. Editing a field never clears the validation message: the message
    of a failed submission is kept under the key [general], the edits look
    under the key of the field they change, and so, after any edits and
    submissions, an edit leaves the [errors] object as it is and changes
    only its own field of the form data.  The message goes away with the
    next submission that passes the validation. *)
Theorem editing_keeps_validation_message (events : list FormEvent)
    (e : FormEditing.Edit) :
  let st := fold_left formStep events FormEditing.initial in
  FormEditing.errors (FormEditing.handleInputChange e st) = FormEditing.errors st
  /\ FormEditing.formData (FormEditing.handleInputChange e st)
     = FormEditing.assign e (FormEditing.formData st)
  /\ (forall today,
        FormEditing.errors (FormEditing.handleSubmit today st) !! "general"
        = if isValid (validateFormInputs today (FormEditing.formData st))
          then None
          else Some (Validation.error (validateFormInputs today (FormEditing.formData st)))).
Proof.
  intros st.
  assert (Hshape : forall key, key <> "general" -> FormEditing.errors st !! key = None).
  { unfold st. clear st.
    assert (H : forall st0,
      (forall key, key <> "general" -> FormEditing.errors st0 !! key = None) ->
      forall key, key <> "general" ->
      FormEditing.errors (fold_left formStep events st0) !! key = None).
    { induction events as [|ev evs IH]; intros st0 H0; [exact H0|].
      cbn [fold_left]. apply IH. apply (formStep_errors_general st0 ev H0). }
    apply H. intros key _. apply lookup_empty. }
  split; [|split].
  - destruct (formStep_errors_general st (Edited e) Hshape) as [_ H].
    exact (H e eq_refl).
  - reflexivity.
  - intros today. unfold FormEditing.handleSubmit. cbn [FormEditing.errors].
    destruct (isValid _); cbn [negb]; [apply lookup_empty | apply lookup_singleton_eq].
Qed.

Lemma editing_keeps_validation_message_witness :
  let failed := fold_left formStep
                  [Edited (FormEditing.EditLatitude "200"); Submitted 0]
                  FormEditing.initial in
  FormEditing.errors failed !! "general" = Some (Some LatitudeOutOfRange)
  /\ FormEditing.errors
       (FormEditing.handleInputChange (FormEditing.EditLatitude "45") failed)
     = FormEditing.errors failed.
Proof.
  split.
  - destruct (editing_keeps_validation_message
                [Edited (FormEditing.EditLatitude "200")] (FormEditing.EditLatitude "45"))
      as (_ & _ & H).
    exact (H 0).
  - destruct (editing_keeps_validation_message
                [Edited (FormEditing.EditLatitude "200"); Submitted 0]
                (FormEditing.EditLatitude "45")) as (H & _).
    exact H.
Defined.

(** ** Numbers on the screen *)

















Lemma sameUpToZeroSign_refl (x : number) : sameUpToZeroSign x x.
Proof. now left. Qed.

Lemma SFadd_same_l (a a' v : number) :
  sameUpToZeroSign a a' ->
  sameUpToZeroSign (SFadd prec emax a v) (SFadd prec emax a' v).
Proof.
  intros [->|(s & s' & -> & ->)]; [now left|].
  destruct v as [sv|sv| |sv mv ev]; cbn; try (now left).
  right. destruct s, s', sv; cbn; eauto.
Qed.

Lemma SFadd_zero_r (a : number) :
  sameUpToZeroSign (SFadd prec emax a (of_Z 0)) a.
Proof.
  destruct a as [s|s| |s m e]; try (now left).
  right. destruct s; cbn; eauto.
Qed.

Lemma SFdiv_same_l (a a' y : number) :
  sameUpToZeroSign a a' ->
  sameUpToZeroSign (SFdiv prec emax a y) (SFdiv prec emax a' y).
Proof.
  intros [->|(s & s' & -> & ->)]; [now left|].
  destruct y as [sy|sy| |sy my ey]; cbn; try (now left); right; eauto.
Qed.

Lemma toFixed_same (x y : number) (f : nat) :
  sameUpToZeroSign x y -> NumberFormat.toFixed x f = NumberFormat.toFixed y f.
Proof. intros [->|(s & s' & -> & ->)]; reflexivity. Qed.

Lemma sameUpToZeroSign_trans (x y z : number) :
  sameUpToZeroSign x y -> sameUpToZeroSign y z -> sameUpToZeroSign x z.
Proof.
  intros [->|(s & s' & -> & ->)] [<-|(t & t' & E & ->)]; try (now left);
    right; eauto.
Qed.

Lemma sum_skips_sentinels (sel : TableRow -> Field) (rows : list TableRow)
    (acc acc' : number) :
  sameUpToZeroSign acc acc' ->
  sameUpToZeroSign
    (fold_left (fun sum row => SFadd prec emax sum (DashboardView.numberOrZero (sel row)))
       rows acc)
    (fold_left (fun sum row => SFadd prec emax sum (DashboardView.numberOrZero (sel row)))
       (List.filter (fun row => isNumber (sel row)) rows) acc').
Proof.
  revert acc acc'. induction rows as [|row rows IH]; intros acc acc' H; [exact H|].
  cbn [fold_left List.filter]. destruct (sel row) as [x|s] eqn:Hsel; cbn [isNumber].
  - cbn [fold_left]. rewrite Hsel. apply IH. now apply SFadd_same_l.
  - apply IH. cbn [DashboardView.numberOrZero].
    eapply sameUpToZeroSign_trans; [apply SFadd_zero_r|exact H].
Qed.

(** X24. The average on a summary card divides by the number of all
    rows, while the rows that hold the sentinel add nothing to the sum: it
    is the sum of the numbers of the column, divided by the number of days
    with or without a value, to one decimal; for an empty table it is
    ["N/A"]. *)
Theorem average_counts_days_without_value (sel : TableRow -> Field)
    (tableData : list TableRow) :
  DashboardView.average sel tableData
  = match tableData with
    | [] => Some "N/A"
    | _ =>
        NumberFormat.toFixed
          (SFdiv prec emax
             (DashboardView.sumOf sel (List.filter (fun row => isNumber (sel row)) tableData))
             (of_Z (Z.of_nat (length tableData))))
          1
    end.
Proof.
  unfold DashboardView.average. destruct tableData as [|row rows]; [reflexivity|].
  change (0 <? Z.of_nat (length (row :: rows))) with (0 <? Z.pos (Pos.of_succ_nat (length rows))).
  cbn [Z.ltb Z.compare]. apply toFixed_same, SFdiv_same_l.
  unfold DashboardView.sumOf. apply sum_skips_sentinels, sameUpToZeroSign_refl.
Qed.

Lemma average_counts_days_without_value_witness :
  DashboardView.avgMaxTemp threeDays = Some "10.0".
Proof.
  unfold DashboardView.avgMaxTemp.
  rewrite (average_counts_days_without_value tempMax threeDays). reflexivity.
Defined.

(** ** The two coordinate ranges *)

Lemma le_widen (x : number) :
  le (of_Z (-90)) x = true -> le x (of_Z 90) = true ->
  le (of_Z (-180)) x = true /\ le x (of_Z 180) = true.
Proof.
  unfold le, SFleb.
  change (of_Z (-90)) with (S754_finite true 6333186975989760 (-46)).
  change (of_Z 90) with (S754_finite false 6333186975989760 (-46)).
  change (of_Z (-180)) with (S754_finite true 6333186975989760 (-45)).
  change (of_Z 180) with (S754_finite false 6333186975989760 (-45)).
  destruct x as [s|s| |s m e]; cbn [SFcompare]; try (destruct s; intros; split; congruence).
  - intros; split; congruence.
  - destruct s.
    + destruct (Z.compare_spec (-46) e), (Z.compare_spec (-45) e);
        try lia; intros; split; congruence.
    + destruct (Z.compare_spec e (-46)), (Z.compare_spec e (-45));
        try lia; intros; split; congruence.
Qed.

(** X25. The latitude range lies inside the longitude range: every input
    that [validateLatitude] accepts is accepted by [validateLongitude] as
    well, and an input the longitude check rejects as no number or as out of
    range is rejected by the latitude check too. *)
Theorem valid_latitude_is_valid_longitude (v : string) :
  (isValid (validateLatitude v) = true -> isValid (validateLongitude v) = true)
  /\ (isValid (validateLongitude v) = false -> isValid (validateLatitude v) = false).
Proof.
  assert (H : isValid (validateLatitude v) = true -> isValid (validateLongitude v) = true).
  { rewrite validateLatitude_valid, validateLongitude_valid. intros [H1 H2].
    now apply le_widen. }
  split; [exact H|]. intros Hlng.
  destruct (isValid (validateLatitude v)); [|reflexivity].
  rewrite H in Hlng by reflexivity. discriminate.
Qed.

Lemma valid_latitude_is_valid_longitude_witness :
  isValid (validateLongitude "-89.5") = true.
Proof.
  destruct (valid_latitude_is_valid_longitude "-89.5") as [H _].
  apply H. reflexivity.
Defined.

(** ** The dates that are sent *)

Lemma toISODate_same_day (n k : Z) :
  0 <= k < msPerDay ->
  toISODate (TimeValue (n * msPerDay + k)) = toISODate (day n).
Proof.
  intros Hk. unfold toISODate, day.
  replace ((n * msPerDay + k) / msPerDay) with n.
  - now rewrite Z.div_mul by discriminate.
  - apply Z.div_unique with k; [left; exact Hk | lia].
Qed.

(** X26. The date strings of the store request are UTC dates: the string
    sent for a date depends only on the UTC day its time value falls in, so
    a time value up to 24 hours before the UTC midnight of a day (the local
    midnight of that day east of Greenwich) is sent as the day before. *)
Theorem store_request_sends_utc_dates (backend : Backend) (fd : Submission) (w : App)
    (n m k j : Z) :
  UIState.startDate fd = Some (TimeValue (n * msPerDay - k)) ->
  UIState.endDate fd = Some (TimeValue (m * msPerDay + j)) ->
  0 < k <= msPerDay -> 0 <= j < msPerDay ->
  exists s e rest,
    toISODate (day (n - 1)) = Some s /\ toISODate (day m) = Some e
    /\ calls (WeatherDashboard.handleFormSubmit backend fd w).2
       = (calls w ++ POST storeUrl (storeRequest fd s e) :: rest)%list.
Proof.
  intros Hs He Hk Hj.
  assert (Hs' : toISODate (TimeValue (n * msPerDay - k)) = toISODate (day (n - 1))).
  { replace (n * msPerDay - k) with ((n - 1) * msPerDay + (msPerDay - k)) by lia.
    apply toISODate_same_day. lia. }
  assert (He' : toISODate (TimeValue (m * msPerDay + j)) = toISODate (day m))
    by (apply toISODate_same_day; lia).
  destruct (toISODate (day (n - 1))) as [s|] eqn:E1; [|discriminate].
  destruct (toISODate (day m)) as [e|] eqn:E2; [|discriminate].
  rewrite handleFormSubmit_outcome. cbn [snd]. unfold submissionOutcome, isoOf.
  rewrite Hs, He. cbn [mbind option_bind]. rewrite Hs', He'.
  exists s, e.
  destruct (on_post backend _ _ _) as [err|[body|]].
  - exists []. split; [reflexivity|]. split; reflexivity.
  - destruct (on_get backend _ _) as [err|content];
      (eexists [_]; split; [reflexivity|]; split; [reflexivity|]);
      cbn; now rewrite <- app_assoc.
  - exists []. split; [reflexivity|]. split; reflexivity.
Qed.

Lemma store_request_sends_utc_dates_witness :
  exists rest,
    calls (WeatherDashboard.handleFormSubmit nullBodyBackend
             {| UIState.latitude := parseFloat "52.52";
                UIState.longitude := parseFloat "13.405";
                UIState.startDate := Some (TimeValue (19358 * msPerDay - 3600000));
                UIState.endDate := Some (TimeValue (19388 * msPerDay + 0)) |}
             form200).2
    = POST storeUrl
        {| BackendApi.latitude := parseFloat "52.52";
           BackendApi.longitude := parseFloat "13.405";
           start_date := "2022-12-31"; end_date := "2023-01-31" |} :: rest.
Proof.
  destruct (store_request_sends_utc_dates nullBodyBackend
              {| UIState.latitude := parseFloat "52.52";
                 UIState.longitude := parseFloat "13.405";
                 UIState.startDate := Some (TimeValue (19358 * msPerDay - 3600000));
                 UIState.endDate := Some (TimeValue (19388 * msPerDay + 0)) |}
              form200 19358 19388 3600000 0 eq_refl eq_refl)
    as (s & e & rest & Hs & He & Hc).
  - vm_compute. split; [reflexivity|discriminate].
  - vm_compute. split; [discriminate|reflexivity].
  - exists rest. vm_compute in Hs, He. injection Hs as <-. injection He as <-.
    exact Hc.
Defined.
